(** * mediAI-chatbot: users, consultants, posts, likes, comments, follows

    A shallow embedding of the credential functions of [auth.py] and of the
    post, like, comment, follow and feed routes of [app.py], over the tables
    declared in [models.py].

    Conventions of the embedding.
    - A Python [str] is a [string]: a sequence of code points below 256.
      [str.strip] and [str.lower] are written out for that range.
    - A table is a finite map from the integer primary key to the row, so
      that a primary key names at most one row. A new row takes the key
      [1 + max] of the keys present (the rowid rule).
    - [Query.first()] without an [order_by] returns the matching row of
      least primary key.
    - Foreign keys are not enforced by the store (the case in which the
      conditional expression of [like_post] can yield a row at all).
    - [datetime.utcnow()] and the name generated by [save_upload] are
      inputs of the functions that use them.
    - [hashlib.sha256(..).hexdigest()] is a parameter of the credential
      functions.
    - An integer column holds a signed 64-bit integer; handed a larger
      id, the database driver raises [OverflowError] before the query
      runs. [storable] is the range. The bodies of [like_post] and
      [comment_post] are written for the ids in that range. *)

From stdpp Require Import gmap strings list fin_maps sorting.
From Stdlib Require Import ZArith Ascii.

Local Open Scope string_scope.
Local Open Scope Z_scope.

(** ** Python and SQL string primitives *)

Module PyStr.

Definition code (c : ascii) : N := N_of_ascii c.

(** [str.isspace] on one code point below 256. *)
Definition isspace (c : ascii) : bool :=
  let n := code c in
  (((9 <=? n) && (n <=? 13)) || ((28 <=? n) && (n <=? 32))
   || (n =? 133) || (n =? 160))%N.

Fixpoint lstrip (s : string) : string :=
  match s with
  | EmptyString => EmptyString
  | String c s' => if isspace c then lstrip s' else s
  end.

Fixpoint rstrip (s : string) : string :=
  match s with
  | EmptyString => EmptyString
  | String c s' =>
      match rstrip s' with
      | EmptyString => if isspace c then EmptyString else String c EmptyString
      | r => String c r
      end
  end.

(** [s.strip()] *)
Definition strip (s : string) : string := rstrip (lstrip s).

(** [str.lower] on one code point below 256: A-Z and the Latin-1 capitals
    (all of U+00C0..U+00DE but the multiplication sign U+00D7). *)
Definition lower_char (c : ascii) : ascii :=
  let n := code c in
  if (((65 <=? n) && (n <=? 90))
      || ((192 <=? n) && (n <=? 222) && negb (n =? 215)))%N
  then ascii_of_N (n + 32) else c.

Fixpoint lower (s : string) : string :=
  match s with
  | EmptyString => EmptyString
  | String c s' => String (lower_char c) (lower s')
  end.

(** Truth value of a [str]: non-empty. *)
Definition truthy (s : string) : bool :=
  match s with EmptyString => false | _ => true end.

(** Every character is whitespace (the empty string included). *)
Fixpoint whitespace_only (s : string) : bool :=
  match s with
  | EmptyString => true
  | String c s' => isspace c && whitespace_only s'
  end.

Fixpoint rfind_from (i : nat) (c : ascii) (s : string) : option nat :=
  match s with
  | EmptyString => None
  | String d s' =>
      match rfind_from (S i) c s' with
      | Some j => Some j
      | None => if Ascii.eqb c d then Some i else None
      end
  end.

(** [s.rfind(c)], [None] for -1. *)
Definition rfind (c : ascii) (s : string) : option nat := rfind_from 0 c s.

Fixpoint drop (n : nat) (s : string) : string :=
  match n, s with
  | O, _ => s
  | S n', String _ s' => drop n' s'
  | S _, EmptyString => EmptyString
  end.

Fixpoint take (n : nat) (s : string) : string :=
  match n, s with
  | S n', String c s' => String c (take n' s')
  | _, _ => EmptyString
  end.

(** All of the characters are the dot. *)
Fixpoint all_dots (s : string) : bool :=
  match s with
  | EmptyString => true
  | String c s' => Ascii.eqb c "." && all_dots s'
  end.

(** [os.path.splitext(p)[1]] with separator [/]: the suffix from the last
    dot of the last path component, unless only dots precede it there. *)
Definition splitext_ext (p : string) : string :=
  match rfind "." p with
  | None => EmptyString
  | Some dotIndex =>
      let filenameIndex :=
        match rfind "/" p with Some i => S i | None => O end in
      if (filenameIndex <=? dotIndex)%nat
      then
        if all_dots (take (dotIndex - filenameIndex) (drop filenameIndex p))
        then EmptyString
        else drop dotIndex p
      else EmptyString
  end.

End PyStr.

Module Sql.

(** SQL [lower()]: the ASCII capitals only. *)
Definition lower_char (c : ascii) : ascii :=
  let n := PyStr.code c in
  if ((65 <=? n) && (n <=? 90))%N then ascii_of_N (n + 32) else c.

Fixpoint lower (s : string) : string :=
  match s with
  | EmptyString => EmptyString
  | String c s' => String (lower_char c) (lower s')
  end.

(** [s LIKE pat]: [%] matches any run of characters, [_] any one character,
    every other pattern character itself; no escape character. *)
Fixpoint like (pat s : string) : bool :=
  match pat with
  | EmptyString => match s with EmptyString => true | _ => false end
  | String p pat' =>
      if Ascii.eqb p "%" then
        (fix any_run (t : string) : bool :=
           like pat' t
           || match t with
              | EmptyString => false
              | String _ t' => any_run t'
              end) s
      else
        match s with
        | EmptyString => false
        | String c s' =>
            (Ascii.eqb p "_" || Ascii.eqb p c) && like pat' s'
        end
  end.

(** [col.ilike(pat)]: [lower(col) LIKE lower(pat)]. *)
Definition ilike (col pat : string) : bool := like (lower pat) (lower col).

End Sql.

(** ** The tables of models.py *)

Record User := {
  user_email : string;
  user_hashed_password : string
}.

Record Consultant := {
  consultant_name : string;
  consultant_email : string;
  consultant_specialization : string;
  consultant_bio : string;
  consultant_media_path : option string;
  consultant_media_type : option string
}.

Record ConsultantPost := {
  post_consultant_id : Z;
  post_content : string;
  post_media_path : option string;
  post_media_type : option string;
  post_timestamp : Z
}.

Record Like := {
  like_user_id : option Z;
  like_consultant_id : option Z;
  like_post_id : Z;
  like_timestamp : Z
}.

Record Comment := {
  comment_user_id : option Z;
  comment_consultant_id : Z;
  comment_post_id : Z;
  comment_text : string;
  comment_timestamp : Z
}.

Record Follower := {
  follower_user_id : option Z;
  follower_consultant_id : Z;
  follower_timestamp : Z
}.

(** The database session together with the files of [UPLOADS_DIR]. *)
Record Store := {
  users : gmap Z User;
  consultants : gmap Z Consultant;
  posts : gmap Z ConsultantPost;
  likes : gmap Z Like;
  comments : gmap Z Comment;
  followers : gmap Z Follower;
  uploads : gset string
}.

Definition empty_store : Store :=
  {| users := ∅; consultants := ∅; posts := ∅; likes := ∅;
     comments := ∅; followers := ∅; uploads := ∅ |}.

#[global] Instance User_eq_dec : EqDecision User.
Proof. solve_decision. Defined.
#[global] Instance Consultant_eq_dec : EqDecision Consultant.
Proof. solve_decision. Defined.
#[global] Instance ConsultantPost_eq_dec : EqDecision ConsultantPost.
Proof. solve_decision. Defined.
#[global] Instance Like_eq_dec : EqDecision Like.
Proof. solve_decision. Defined.
#[global] Instance Comment_eq_dec : EqDecision Comment.
Proof. solve_decision. Defined.
#[global] Instance Follower_eq_dec : EqDecision Follower.
Proof. solve_decision. Defined.

(** ** Queries *)

Section Query.
Context {A : Type}.

(** The primary key given to the next row added to a table. *)
Definition next_id (t : gmap Z A) : Z :=
  1 + foldr Z.max 0 (map_to_list t).*1.

(** [db.add(row); db.commit()] *)
Definition add_row (row : A) (t : gmap Z A) : gmap Z A :=
  <[next_id t := row]> t.

(** Rows in primary-key order. *)
Definition by_id : relation (Z * A) := λ x y, x.1 ≤ y.1.

#[global] Instance by_id_dec : RelDecision by_id.
Proof. intros x y. unfold by_id. apply _. Defined.

(** [query.filter(P).all()], in primary-key order. *)
Definition select (P : Z * A → Prop) `{!∀ x, Decision (P x)}
    (t : gmap Z A) : list (Z * A) :=
  merge_sort by_id (filter P (map_to_list t)).

(** [query.filter(P).first()] *)
Definition first (P : Z * A → Prop) `{!∀ x, Decision (P x)}
    (t : gmap Z A) : option (Z * A) :=
  head (select P t).

(** [query.filter(P).count()] *)
Definition count (P : Z * A → Prop) `{!∀ x, Decision (P x)}
    (t : gmap Z A) : nat :=
  length (filter P (map_to_list t)).

End Query.

(** ** Store updates *)

Definition set_users (f : gmap Z User → gmap Z User) (db : Store) : Store :=
  {| users := f (users db); consultants := consultants db;
     posts := posts db; likes := likes db; comments := comments db;
     followers := followers db; uploads := uploads db |}.

Definition set_posts (f : gmap Z ConsultantPost → gmap Z ConsultantPost)
    (db : Store) : Store :=
  {| users := users db; consultants := consultants db;
     posts := f (posts db); likes := likes db; comments := comments db;
     followers := followers db; uploads := uploads db |}.

Definition set_likes (f : gmap Z Like → gmap Z Like) (db : Store) : Store :=
  {| users := users db; consultants := consultants db;
     posts := posts db; likes := f (likes db); comments := comments db;
     followers := followers db; uploads := uploads db |}.

Definition set_comments (f : gmap Z Comment → gmap Z Comment)
    (db : Store) : Store :=
  {| users := users db; consultants := consultants db;
     posts := posts db; likes := likes db; comments := f (comments db);
     followers := followers db; uploads := uploads db |}.

Definition set_followers (f : gmap Z Follower → gmap Z Follower)
    (db : Store) : Store :=
  {| users := users db; consultants := consultants db;
     posts := posts db; likes := likes db; comments := comments db;
     followers := f (followers db); uploads := uploads db |}.

Definition set_uploads (f : gset string → gset string) (db : Store) : Store :=
  {| users := users db; consultants := consultants db;
     posts := posts db; likes := likes db; comments := comments db;
     followers := followers db; uploads := f (uploads db) |}.

(** ** auth.py *)

Module Auth.
Section WithHash.

(** [hashlib.sha256(s.encode('utf-8')).hexdigest()] *)
Variable sha256_hexdigest : string → string.

Definition hash_password (password : string) : string :=
  let password := PyStr.strip password in
  sha256_hexdigest password.

Definition verify_password (plain_password hashed_password : string) : bool :=
  let plain_password := PyStr.strip plain_password in
  bool_decide (hash_password plain_password = hashed_password).

(** The [ValueError] of [register_user], with its message. *)
Inductive ValueError := Value_error (msg : string).

(** [register_user]: the exception raised or the new row, and the store. *)
Definition register_user (db : Store) (email password : string)
    : (ValueError + Z * User) * Store :=
  let email := PyStr.lower (PyStr.strip email) in
  let password := PyStr.strip password in
  match first (λ r, user_email r.2 = email) (users db) with
  | Some _ =>
      (inl (Value_error "Email already registered. Please log in."), db)
  | None =>
      let hashed := hash_password password in
      let new_user :=
        {| user_email := email; user_hashed_password := hashed |} in
      (inr (next_id (users db), new_user), set_users (add_row new_user) db)
  end.

(** [login_user]: [None] or the row found. *)
Definition login_user (db : Store) (email password : string)
    : option (Z * User) :=
  match first (λ r, user_email r.2 = PyStr.lower (PyStr.strip email))
          (users db) with
  | None => None
  | Some user =>
      if negb (verify_password password (user_hashed_password user.2))
      then None
      else Some user
  end.

Definition get_current_user (db : Store) (email : string)
    : option (Z * User) :=
  first (λ r, user_email r.2 = PyStr.lower (PyStr.strip email)) (users db).

End WithHash.
End Auth.

(** ** Requests and responses of app.py *)

(** The part of a request the routes read: the two session slots and the
    [Referer] header. *)
Record Request := {
  session_user_id : option Z;
  session_consultant_id : option Z;
  referer : option string
}.

Inductive Response :=
| RedirectResponse (url : string) (status_code : Z).

(** What a route does: return a response or raise [HTTPException]. *)
Inductive Outcome :=
| Returns (r : Response)
| HTTPException (status_code : Z) (detail : string).

(** Truth value of [request.session.get(key)] for an integer slot. *)
Definition truthy_id (v : option Z) : bool :=
  match v with
  | Some n => negb (n =? 0)
  | None => false
  end.

(** Truth value of an optional [str]. *)
Definition truthy_str (v : option string) : bool :=
  match v with
  | Some s => PyStr.truthy s
  | None => false
  end.

(** [request.headers.get("Referer", "/consultants")] *)
Definition back (request : Request) : string :=
  default "/consultants" (referer request).

Definition video_exts : list string := [".mp4"; ".mov"; ".avi"; ".webm"].

(** ["video" if splitext(path)[1].lower() in [...] else "image"] *)
Definition media_type_of (path : string) : string :=
  if bool_decide (PyStr.lower (PyStr.splitext_ext path) ∈ video_exts)
  then "video" else "image".

(** [os.remove] of the stored file of a row, when the path is set. *)
Definition remove_media (media_path : option string) (files : gset string)
    : gset string :=
  match media_path with
  | Some p => if PyStr.truthy p then files ∖ {[p]} else files
  | None => files
  end.

(** ** Posts *)

(** [consultant_post_submit]; [media] is the name [save_upload] returned. *)
Definition consultant_post_submit (db : Store) (request : Request)
    (content : string) (media : option string) (now : Z) : Outcome * Store :=
  if negb (truthy_id (session_consultant_id request))
  then (Returns (RedirectResponse "/consultant-register" 307), db)
  else
    let consultant_id := default 0 (session_consultant_id request) in
    let media_type :=
      if truthy_str media then media_type_of <$> media else None in
    let post :=
      {| post_consultant_id := consultant_id; post_content := content;
         post_media_path := media; post_media_type := media_type;
         post_timestamp := now |} in
    (Returns (RedirectResponse "/consultant_post" 303),
     set_posts (add_row post)
       (set_uploads (λ files, from_option (λ f, files ∪ {[f]}) files media)
          db)).

(** [edit_post]; [new_media] is the name [save_upload] returned for an
    upload with a file name, [None] without one. *)
Definition edit_post (db : Store) (request : Request) (post_id : Z)
    (new_bio : string) (new_media : option string) (now : Z)
    : Outcome * Store :=
  if negb (truthy_id (session_consultant_id request))
  then (Returns (RedirectResponse "/consultant-register" 307), db)
  else
    match posts db !! post_id with
    | None => (HTTPException 403 "Not authorized to edit", db)
    | Some post =>
        if bool_decide (Some (post_consultant_id post)
                        ≠ session_consultant_id request)
        then (HTTPException 403 "Not authorized to edit", db)
        else
          let '(media_path, media_type, files) :=
            match new_media with
            | Some fname =>
                (Some fname, Some (media_type_of fname),
                 remove_media (post_media_path post) (uploads db) ∪ {[fname]})
            | None =>
                (post_media_path post, post_media_type post, uploads db)
            end in
          let post' :=
            {| post_consultant_id := post_consultant_id post;
               post_content := new_bio;
               post_media_path := media_path;
               post_media_type := media_type;
               post_timestamp := now |} in
          (Returns (RedirectResponse "/consultant_post" 303),
           set_posts (insert post_id post') (set_uploads (λ _, files) db))
    end.

(** [delete_post]; deleting the row cascades to its likes and comments. *)
Definition delete_post (db : Store) (request : Request) (post_id : Z)
    : Outcome * Store :=
  if negb (truthy_id (session_consultant_id request))
  then (Returns (RedirectResponse "/consultant-register" 307), db)
  else
    match posts db !! post_id with
    | None => (HTTPException 403 "Not authorized to delete", db)
    | Some post =>
        if bool_decide (Some (post_consultant_id post)
                        ≠ session_consultant_id request)
        then (HTTPException 403 "Not authorized to delete", db)
        else
          (Returns (RedirectResponse "/consultant_post" 303),
           set_posts (delete post_id)
             (set_likes (filter (λ r, like_post_id r.2 ≠ post_id))
                (set_comments (filter (λ r, comment_post_id r.2 ≠ post_id))
                   (set_uploads (remove_media (post_media_path post)) db))))
    end.

(** ** The public feed *)

Record FeedItem := {
  item_post : Z * ConsultantPost;
  item_consultant : Z * Consultant;
  item_likes_count : nat;
  item_comments : list (Z * Comment);
  item_followers_count : nat;
  item_profile_pic : option string;
  item_media_url : option string
}.

Definition media_url_for (filename : option string) : option string :=
  match filename with
  | Some f => if PyStr.truthy f then Some ("static/uploads/" +:+ f) else None
  | None => None
  end.

(** [f"%{s}%"] *)
Definition contains_pattern (s : string) : string := "%" +:+ s +:+ "%".

(** The [WHERE] clause of the feed query on a post joined to its
    consultant. *)
Definition feed_where (q specialization : option string)
    (p : ConsultantPost) (c : Consultant) : bool :=
  (if truthy_str specialization
   then Sql.ilike (consultant_specialization c)
          (contains_pattern (default "" specialization))
   else true)
  &&
  (if truthy_str q
   then
     let q_like := contains_pattern (default "" q) in
     Sql.ilike (consultant_name c) q_like
     || Sql.ilike (consultant_bio c) q_like
     || Sql.ilike (post_content p) q_like
     || Sql.ilike (consultant_specialization c) q_like
   else true).

(** A post row is kept when it joins a consultant and passes the filters. *)
Definition feed_row (db : Store) (q specialization : option string)
    (r : Z * ConsultantPost) : bool :=
  match consultants db !! post_consultant_id r.2 with
  | Some c => feed_where q specialization r.2 c
  | None => false
  end.

(** [ConsultantPost.timestamp.desc()] *)
Definition newest_first : relation (Z * ConsultantPost) :=
  λ x y, post_timestamp y.2 ≤ post_timestamp x.2.

#[global] Instance newest_first_dec : RelDecision newest_first.
Proof. intros x y. unfold newest_first. apply _. Defined.

(** [Comment.timestamp.asc()] *)
Definition oldest_first : relation (Z * Comment) :=
  λ x y, comment_timestamp x.2 ≤ comment_timestamp y.2.

#[global] Instance oldest_first_dec : RelDecision oldest_first.
Proof. intros x y. unfold oldest_first. apply _. Defined.

(** The posts the feed query returns, in order. *)
Definition feed_posts (db : Store) (q specialization : option string)
    : list (Z * ConsultantPost) :=
  merge_sort newest_first
    (filter (λ r, feed_row db q specialization r = true)
       (map_to_list (posts db))).

(** One iteration of the loop that builds the template rows; [None] when
    [c] is [None] and [c.id] raises. *)
Definition feed_item (db : Store) (p : Z * ConsultantPost)
    : option FeedItem :=
  c ← consultants db !! post_consultant_id p.2;
  Some
    {| item_post := p;
       item_consultant := (post_consultant_id p.2, c);
       item_likes_count := count (λ r, like_post_id r.2 = p.1) (likes db);
       item_comments :=
         merge_sort oldest_first
           (filter (λ r, comment_post_id r.2 = p.1)
              (map_to_list (comments db)));
       item_followers_count :=
         count (λ r, follower_consultant_id r.2 = post_consultant_id p.2)
           (followers db);
       item_profile_pic := media_url_for (consultant_media_path c);
       item_media_url := media_url_for (post_media_path p.2) |}.

(** [consultants_page]: the [posts] list handed to the template. *)
Definition consultants_page (db : Store) (q specialization : option string)
    : option (list FeedItem) :=
  mapM (feed_item db) (feed_posts db q specialization).

(** ** Likes, comments, follows *)

(** [like_post], for a [post_id] that the store can hold (see [storable]
    below): outside that range its first query raises. *)
Definition like_post (db : Store) (request : Request) (post_id : Z)
    (now : Z) : Outcome * Store :=
  let user_id := session_user_id request in
  match first (λ r, like_post_id r.2 = post_id ∧ like_user_id r.2 = user_id)
          (likes db) with
  | Some existing =>
      (Returns (RedirectResponse (back request) 303),
       set_likes (delete existing.1) db)
  | None =>
      let like :=
        {| like_user_id := user_id;
           like_post_id := post_id;
           like_consultant_id :=
             match posts db !! post_id with
             | Some post => Some (post_consultant_id post)
             | None => None
             end;
           like_timestamp := now |} in
      (Returns (RedirectResponse (back request) 303),
       set_likes (add_row like) db)
  end.

(** The body of [comment_post], for a [post_id] that the store can hold;
    [comment_post_route] below adds what comes before and around the body
    when a request is served. *)
Definition comment_post (db : Store) (request : Request) (post_id : Z)
    (comment_text : string) (now : Z) : Outcome * Store :=
  let user_id := session_user_id request in
  if negb (PyStr.truthy comment_text)
     || negb (PyStr.truthy (PyStr.strip comment_text))
  then (Returns (RedirectResponse (back request) 303), db)
  else
    match posts db !! post_id with
    | None => (HTTPException 404 "Post not found", db)
    | Some post =>
        let c :=
          {| comment_user_id := user_id;
             comment_post_id := post_id;
             comment_consultant_id := post_consultant_id post;
             comment_text := comment_text;
             comment_timestamp := now |} in
        (Returns (RedirectResponse (back request) 303),
         set_comments (add_row c) db)
    end.

Definition follow_consultant (db : Store) (request : Request)
    (consultant_id : Z) (now : Z) : Outcome * Store :=
  let user_id := session_user_id request in
  match first (λ r, follower_consultant_id r.2 = consultant_id
                    ∧ follower_user_id r.2 = user_id)
          (followers db) with
  | Some existing =>
      (Returns (RedirectResponse (back request) 303),
       set_followers (delete existing.1) db)
  | None =>
      let f :=
        {| follower_user_id := user_id;
           follower_consultant_id := consultant_id;
           follower_timestamp := now |} in
      (Returns (RedirectResponse (back request) 303),
       set_followers (add_row f) db)
  end.

(** An id that an integer column can hold: a signed 64-bit integer. *)
Definition storable (id : Z) : bool :=
  (- 2 ^ 63 <=? id) && (id <? 2 ^ 63).

(** How a request ends: refused by the validation of a [Form(...)] field
    (status 422) before the body runs, stopped by the [OverflowError] the
    database driver raises for an id that is not [storable], or with the
    outcome of the body. *)
Inductive Reply :=
| Unprocessable
| OverflowError
| Ran (o : Outcome).

(** [comment_post] as a request is served: [comment_text] is the form
    field, [None] when the form has none. [Form(...)] makes the field
    required, and an empty value counts as missing. The lookup of the post
    is the first query of the body. *)
Definition comment_post_route (db : Store) (request : Request) (post_id : Z)
    (comment_text : option string) (now : Z) : Reply * Store :=
  if negb (truthy_str comment_text) then (Unprocessable, db)
  else
    let comment_text := default "" comment_text in
    let user_id := session_user_id request in
    if negb (PyStr.truthy comment_text)
       || negb (PyStr.truthy (PyStr.strip comment_text))
    then (Ran (Returns (RedirectResponse (back request) 303)), db)
    else if negb (storable post_id) then (OverflowError, db)
    else
      match posts db !! post_id with
      | None => (Ran (HTTPException 404 "Post not found"), db)
      | Some post =>
          let c :=
            {| comment_user_id := user_id;
               comment_post_id := post_id;
               comment_consultant_id := post_consultant_id post;
               comment_text := comment_text;
               comment_timestamp := now |} in
          (Ran (Returns (RedirectResponse (back request) 303)),
           set_comments (add_row c) db)
      end.

(** ** Observations used in the statements *)

(** The like count of a post, as the feed computes it. *)
Definition likes_count (db : Store) (post_id : Z) : nat :=
  count (λ r, like_post_id r.2 = post_id) (likes db).

(** The likes of one (post, actor) pair. *)
Definition pair_likes (db : Store) (post_id : Z) (user_id : option Z) : nat :=
  count (λ r, like_post_id r.2 = post_id ∧ like_user_id r.2 = user_id)
    (likes db).

Definition liked (db : Store) (post_id : Z) (user_id : option Z) : bool :=
  bool_decide (pair_likes db post_id user_id ≠ 0%nat).

Definition followers_count (db : Store) (consultant_id : Z) : nat :=
  count (λ r, follower_consultant_id r.2 = consultant_id) (followers db).

Definition pair_follows (db : Store) (consultant_id : Z)
    (user_id : option Z) : nat :=
  count (λ r, follower_consultant_id r.2 = consultant_id
              ∧ follower_user_id r.2 = user_id)
    (followers db).

Definition following (db : Store) (consultant_id : Z)
    (user_id : option Z) : bool :=
  bool_decide (pair_follows db consultant_id user_id ≠ 0%nat).

(** The data-model invariant: at most one Like per (post, actor) and at
    most one Follower per (consultant, actor). *)
Definition pairs_unique (db : Store) : Prop :=
  (∀ post_id user_id, (pair_likes db post_id user_id ≤ 1)%nat)
  ∧ (∀ consultant_id user_id,
       (pair_follows db consultant_id user_id ≤ 1)%nat).

(** A toggle over two calls: the state flips and flips back, the total
    moves by one and comes back. *)
Definition toggles (s0 s1 s2 : bool) (n0 n1 n2 : nat) : Prop :=
  s1 = negb s0
  ∧ s2 = s0
  ∧ n2 = n0
  ∧ (s0 = false → n1 = S n0)
  ∧ (s0 = true → S n1 = n0).

(** The row [p] with another timestamp. *)
Definition restamp (t : Z) (p : ConsultantPost) : ConsultantPost :=
  {| post_consultant_id := post_consultant_id p;
     post_content := post_content p;
     post_media_path := post_media_path p;
     post_media_type := post_media_type p;
     post_timestamp := t |}.

(** [s.startswith(sub)] *)
Fixpoint starts_with (sub s : string) : bool :=
  match sub, s with
  | EmptyString, _ => true
  | String a sub', String b s' => Ascii.eqb a b && starts_with sub' s'
  | String _ _, EmptyString => false
  end.

(** [sub in s]: [sub] occurs in [s] as a substring. *)
Fixpoint contains (sub s : string) : bool :=
  starts_with sub s
  || match s with
     | EmptyString => false
     | String _ s' => contains sub s'
     end.

(** [sub] occurs in [s], as a proposition. *)
Definition substring (sub s : string) : Prop :=
  ∃ pre post, s = pre +:+ sub +:+ post.



(** ** A small store

    Consultant 1 ("Nutrition") has published post 1; user 7 is logged in
    and holds no consultant session, consultant 1 holds one. *)

Definition nutritionist : Consultant :=
  {| consultant_name := "C"; consultant_email := "c@example.org";
     consultant_specialization := "Nutrition"; consultant_bio := "";
     consultant_media_path := None; consultant_media_type := None |}.

Definition as_user_7 : Request :=
  {| session_user_id := Some 7; session_consultant_id := None;
     referer := None |}.

Definition as_consultant_1 : Request :=
  {| session_user_id := None; session_consultant_id := Some 1;
     referer := None |}.

Definition as_consultant_2 : Request :=
  {| session_user_id := None; session_consultant_id := Some 2;
     referer := None |}.

Definition one_consultant : Store :=
  {| users := ∅; consultants := {[ 1 := nutritionist ]}; posts := ∅;
     likes := ∅; comments := ∅; followers := ∅; uploads := ∅ |}.

Definition one_post : Store :=
  (consultant_post_submit one_consultant as_consultant_1
     "Eat more fiber" None 100).2.

(** The row of post 1. *)
Definition nutritionist_post : ConsultantPost :=
  {| post_consultant_id := 1; post_content := "Eat more fiber";
     post_media_path := None; post_media_type := None;
     post_timestamp := 100 |}.

Definition one_like : Store := (like_post one_post as_user_7 1 101).2.

(** A stand-in digest for running the credential functions on examples. *)
Definition tag_digest (s : string) : string := "sha256:" +:+ s.

(** Ann has signed up on an empty store. *)
Definition ann_registered : Store :=
  (Auth.register_user tag_digest empty_store
     " Ann@Example.org " " s3cret ").2.

Definition ann : Z * User :=
  (1, {| user_email := "ann@example.org";
         user_hashed_password := "sha256:s3cret" |}).

(** ** Uploaded files *)

(** [str.isalnum] on one code point below 256, the alphanumeric part of the
    regular expression class [\w]. *)
Definition isalnum (c : ascii) : bool :=
  let n := PyStr.code c in
  (((48 <=? n) && (n <=? 57)) || ((65 <=? n) && (n <=? 90))
   || ((97 <=? n) && (n <=? 122))
   || (n =? 170) || (n =? 178) || (n =? 179) || (n =? 181)
   || (n =? 185) || (n =? 186) || ((188 <=? n) && (n <=? 190))
   || ((192 <=? n) && (n <=? 214)) || ((216 <=? n) && (n <=? 246))
   || ((248 <=? n) && (n <=? 255)))%N.

(** A character outside the class [[^\w\-_\. ]]: it is kept. *)
Definition safe_char (c : ascii) : bool :=
  isalnum c || Ascii.eqb c "_" || Ascii.eqb c "-" || Ascii.eqb c "."
  || Ascii.eqb c " ".

(** [re.sub(r"[^\w\-_\. ]", "_", name)] *)
Fixpoint _sanitize_filename (name : string) : string :=
  match name with
  | EmptyString => EmptyString
  | String c name' =>
      String (if safe_char c then c else "_"%char) (_sanitize_filename name')
  end.

(** [save_upload]; [file] is the upload's file name ([None] without an
    upload or without a name), [uniq] the time stamp and random suffix the
    function generates, [files] the content of [UPLOADS_DIR]. *)
Definition save_upload (uniq : string) (file : option string)
    (files : gset string) : option string * gset string :=
  if negb (truthy_str file) then (None, files)
  else
    let ext := PyStr.lower (PyStr.splitext_ext (default "" file)) in
    let fname := uniq +:+ ext in
    let fname := _sanitize_filename fname in
    (Some fname, files ∪ {[fname]}).

(** [c] occurs in [s]. *)
Fixpoint occurs (c : ascii) (s : string) : bool :=
  match s with
  | EmptyString => false
  | String d s' => Ascii.eqb c d || occurs c s'
  end.

(** A dot, a digit or a lowercase ASCII letter: the characters of the
    video extensions. *)
Definition ext_char (c : ascii) : bool :=
  let n := PyStr.code c in
  ((n =? 46) || ((48 <=? n) && (n <=? 57)) || ((97 <=? n) && (n <=? 122)))%N.

Fixpoint ext_chars (s : string) : bool :=
  match s with
  | EmptyString => true
  | String c s' => ext_char c && ext_chars s'
  end.

(** ** Sessions and the routes around them *)

(** The legacy [session["consultant"]] dictionary. *)
Record LegacyConsultant := {
  legacy_name : string;
  legacy_email : string;
  legacy_specialization : string;
  legacy_profile_pic : option string
}.

(** [request.session]: a key that is absent reads as [None]. *)
Record Session := {
  sess_user_id : option Z;
  sess_user_email : option string;
  sess_user : option string;
  sess_consultant_id : option Z;
  sess_consultant_email : option string;
  sess_consultant : option LegacyConsultant
}.

(** [request.session.clear()] *)
Definition empty_session : Session :=
  {| sess_user_id := None; sess_user_email := None; sess_user := None;
     sess_consultant_id := None; sess_consultant_email := None;
     sess_consultant := None |}.

(** The request a session makes to the like, comment, follow and post
    routes. *)
Definition request_of (session : Session) (ref : option string) : Request :=
  {| session_user_id := sess_user_id session;
     session_consultant_id := sess_consultant_id session;
     referer := ref |}.

(** A rendered template with the message it shows, or a redirect. *)
Inductive Page :=
| Page_redirect (r : Response)
| Page_template (name : string) (message : option string).

(** [a or b] on optional strings. *)
Definition or_str (a b : option string) : option string :=
  if truthy_str a then a else b.

(** [root]: where the landing page sends the client. *)
Definition root (session : Session) : Response :=
  let user_email := or_str (sess_user_email session) (sess_user session) in
  if bool_decide (is_Some (sess_consultant session))
     || truthy_str (sess_consultant_email session)
  then RedirectResponse "/consultant_post" 307
  else if truthy_str user_email then RedirectResponse "/home" 307
  else RedirectResponse "/login" 307.

Definition set_consultants (f : gmap Z Consultant → gmap Z Consultant)
    (db : Store) : Store :=
  {| users := users db; consultants := f (consultants db);
     posts := posts db; likes := likes db; comments := comments db;
     followers := followers db; uploads := uploads db |}.

Section Routes.
Variable sha256_hexdigest : string → string.

(** [login_user_route] *)
Definition login_user_route (db : Store) (session : Session)
    (email password : string) : Page * Session :=
  match Auth.login_user sha256_hexdigest db email password with
  | None =>
      (Page_template "login.html" (Some "Incorrect email or password."),
       session)
  | Some user =>
      (Page_redirect (RedirectResponse "/home" 303),
       {| sess_user_id := Some user.1;
          sess_user_email := Some (user_email user.2);
          sess_user := sess_user session;
          sess_consultant_id := sess_consultant_id session;
          sess_consultant_email := sess_consultant_email session;
          sess_consultant := sess_consultant session |})
  end.

(** [signup_user_route] *)
Definition signup_user_route (db : Store) (email password : string)
    : Page * Store :=
  match Auth.register_user sha256_hexdigest db email password with
  | (inr _, db') => (Page_redirect (RedirectResponse "/login" 303), db')
  | (inl (Auth.Value_error msg), db') =>
      (Page_template "signup.html" (Some msg), db')
  end.

End Routes.

(** The two messages of the forgot-password page. *)
Inductive ForgotMessage := Email_not_found | Reset_link_sent.

(** [forgot_password_submit] *)
Definition forgot_password_submit (db : Store) (email : string)
    : ForgotMessage :=
  match first (λ r, user_email r.2 = email) (users db) with
  | None => Email_not_found
  | Some _ => Reset_link_sent
  end.

(** [logout] *)
Definition logout (session : Session) : Response * Session :=
  (RedirectResponse "/login" 303, empty_session).

(** [consultant_register_submit]; [media] is the name [save_upload]
    returned for the picture, already written to the uploads. No step of
    the body raises on this store, so the [except] branch is not taken. *)
Definition consultant_register_submit (db : Store) (session : Session)
    (name email specialization bio : string) (media : option string)
    : Response * Store * Session :=
  let pic_filename := media in
  let db :=
    set_uploads (λ files, from_option (λ f, files ∪ {[f]}) files media) db in
  let '(id, consultant, db) :=
    match first (λ r, consultant_email r.2 = email) (consultants db) with
    | None =>
        let consultant :=
          {| consultant_name := name; consultant_email := email;
             consultant_specialization := specialization;
             consultant_bio := bio;
             consultant_media_path := pic_filename;
             consultant_media_type :=
               if truthy_str pic_filename then Some "image" else None |} in
        (next_id (consultants db), consultant,
         set_consultants (add_row consultant) db)
    | Some old =>
        if truthy_str pic_filename
        then
          let consultant :=
            {| consultant_name := name;
               consultant_email := consultant_email old.2;
               consultant_specialization := specialization;
               consultant_bio := bio;
               consultant_media_path := pic_filename;
               consultant_media_type := Some "image" |} in
          (old.1, consultant,
           set_consultants (insert old.1 consultant)
             (set_uploads (remove_media (consultant_media_path old.2)) db))
        else
          let consultant :=
            {| consultant_name := name;
               consultant_email := consultant_email old.2;
               consultant_specialization := specialization;
               consultant_bio := bio;
               consultant_media_path := consultant_media_path old.2;
               consultant_media_type := consultant_media_type old.2 |} in
          (old.1, consultant, set_consultants (insert old.1 consultant) db)
    end in
  (RedirectResponse "/consultant_post" 303, db,
   {| sess_user_id := sess_user_id session;
      sess_user_email := sess_user_email session;
      sess_user := sess_user session;
      sess_consultant_id := Some id;
      sess_consultant_email := Some (consultant_email consultant);
      sess_consultant :=
        Some {| legacy_name := consultant_name consultant;
                legacy_email := consultant_email consultant;
                legacy_specialization := consultant_specialization consultant;
                legacy_profile_pic := consultant_media_path consultant |} |}).

(** One row of the consultant's dashboard. *)
Record DashboardPost := {
  dash_post : Z * ConsultantPost;
  dash_likes_count : nat;
  dash_comments_count : nat
}.

Record Dashboard := {
  dash_consultant : option (Z * Consultant);
  dash_posts : list DashboardPost;
  dash_profile_pic : option string
}.

(** [filter_by(consultant_id=..).order_by(timestamp.desc()).all()] *)
Definition posts_of (db : Store) (consultant_id : Z)
    : list (Z * ConsultantPost) :=
  merge_sort newest_first
    (filter (λ r, post_consultant_id r.2 = consultant_id)
       (map_to_list (posts db))).

(** [consultant_post_page]: the redirect or the dashboard, and the
    session, in which the legacy fallback stores the id it resolved. *)
Definition consultant_post_page (db : Store) (session : Session)
    : (Response + Dashboard) * Session :=
  let '(consultant_id, session) :=
    if negb (truthy_id (sess_consultant_id session))
    then
      match sess_consultant session with
      | Some consultant_session =>
          match first (λ r, consultant_email r.2
                            = legacy_email consultant_session)
                  (consultants db) with
          | Some consultant =>
              (Some consultant.1,
               {| sess_user_id := sess_user_id session;
                  sess_user_email := sess_user_email session;
                  sess_user := sess_user session;
                  sess_consultant_id := Some consultant.1;
                  sess_consultant_email := sess_consultant_email session;
                  sess_consultant := sess_consultant session |})
          | None => (sess_consultant_id session, session)
          end
      | None => (sess_consultant_id session, session)
      end
    else (sess_consultant_id session, session) in
  if negb (truthy_id consultant_id)
  then (inl (RedirectResponse "/consultant-register" 307), session)
  else
    let consultant_id := default 0 consultant_id in
    let consultant := consultants db !! consultant_id in
    (inr {| dash_consultant := pair consultant_id <$> consultant;
            dash_posts :=
              (λ p, {| dash_post := p;
                       dash_likes_count :=
                         count (λ r, like_post_id r.2 = p.1) (likes db);
                       dash_comments_count :=
                         count (λ r, comment_post_id r.2 = p.1)
                           (comments db) |})
              <$> posts_of db consultant_id;
            dash_profile_pic :=
              match consultant with
              | Some c =>
                  if truthy_str (consultant_media_path c)
                  then consultant_media_path c else None
              | None => None
              end |},
     session).

(** One post of a consultant's public profile. *)
Record ProfilePost := {
  prof_post : Z * ConsultantPost;
  prof_likes_count : nat;
  prof_comments : list (Z * Comment)
}.

Record Profile := {
  prof_consultant : Z * Consultant;
  prof_posts : list ProfilePost;
  prof_profile_pic : option string
}.

(** [consultant_profile]: the error it ends in or the profile. Its first
    statement is the lookup of the consultant, which the driver refuses for
    an id that is not [storable]. *)
Definition consultant_profile (db : Store) (consultant_id : Z)
    : Reply + Profile :=
  if negb (storable consultant_id) then inl OverflowError
  else
  match consultants db !! consultant_id with
  | None => inl (Ran (HTTPException 404 "Consultant not found"))
  | Some c =>
      inr {| prof_consultant := (consultant_id, c);
             prof_posts :=
               (λ p, {| prof_post := p;
                        prof_likes_count :=
                          count (λ r, like_post_id r.2 = p.1) (likes db);
                        prof_comments :=
                          merge_sort oldest_first
                            (filter (λ r, comment_post_id r.2 = p.1)
                               (map_to_list (comments db))) |})
               <$> posts_of db consultant_id;
             prof_profile_pic := media_url_for (consultant_media_path c) |}
  end.

(** ** The health quiz recommendations *)

(** [text.split("\n")] *)
Fixpoint split_lines (text : string) : list string :=
  match text with
  | EmptyString => [EmptyString]
  | String c text' =>
      if Ascii.eqb c (ascii_of_N 10) then EmptyString :: split_lines text'
      else
        match split_lines text' with
        | line :: lines => String c line :: lines
        | [] => [String c EmptyString]
        end
  end.

(** [[r.strip() for r in text.split("\n") if r.strip()]] *)
Definition recommendations (text : string) : list string :=
  PyStr.strip
  <$> filter (λ r, PyStr.truthy (PyStr.strip r) = true) (split_lines text).

(** ** Normal forms *)

(** The email as [register_user] stores it and the queries look it up. *)
Definition normal_email (email : string) : string :=
  PyStr.lower (PyStr.strip email).

(** Every stored email is in normal form and no two rows share one. *)
Definition users_wf (db : Store) : Prop :=
  (∀ id u, users db !! id = Some u → normal_email (user_email u) = user_email u)
  ∧ (∀ email,
       (count (λ r : Z * User, user_email r.2 = email) (users db) ≤ 1)%nat).


(** Two sessions of consultant 1: one holding the id, one holding only
    the legacy entry. *)
Definition session_of_consultant_1 : Session :=
  {| sess_user_id := None; sess_user_email := None; sess_user := None;
     sess_consultant_id := Some 1; sess_consultant_email := None;
     sess_consultant := None |}.

Definition legacy_session : Session :=
  {| sess_user_id := None; sess_user_email := None; sess_user := None;
     sess_consultant_id := None; sess_consultant_email := None;
     sess_consultant :=
       Some {| legacy_name := "C"; legacy_email := "c@example.org";
               legacy_specialization := "Nutrition";
               legacy_profile_pic := None |} |}.

(** A model answer of three lines, the middle one blank. *)
Definition quiz_answer : string :=
  " Drink water " +:+ String (ascii_of_N 10) (String (ascii_of_N 10)
    ("  Sleep 8h" +:+ String (ascii_of_N 10) EmptyString)).






(** * Properties *)

(** ** Tables and queries *)

Section QueryFacts.
Context {A : Type}.
Implicit Types (t : gmap Z A) (P : Z * A → Prop).

Lemma keys_le_max (l : list Z) (k : Z) : k ∈ l → k ≤ foldr Z.max 0 l.
Proof.
  induction l as [|x l IH]; intros Hk.
  - by apply elem_of_nil in Hk.
  - apply elem_of_cons in Hk as [->|Hk]; simpl; [lia|].
    specialize (IH Hk). lia.
Qed.

Lemma next_id_fresh t : t !! next_id t = None.
Proof.
  destruct (t !! next_id t) as [v|] eqn:E; [|done].
  apply elem_of_map_to_list in E.
  assert (next_id t ∈ (map_to_list t).*1) as Hin.
  { apply list_elem_of_fmap. by exists (next_id t, v). }
  apply keys_le_max in Hin. unfold next_id in Hin. lia.
Qed.

Lemma count_insert_fresh P `{!∀ x, Decision (P x)} t k v :
  t !! k = None →
  count P (<[k:=v]> t)
  = if decide (P (k, v)) then S (count P t) else count P t.
Proof.
  intros Hk. unfold count.
  rewrite (map_to_list_insert t k v Hk), filter_cons.
  by destruct (decide (P (k, v))).
Qed.

Lemma count_add_row P `{!∀ x, Decision (P x)} t v :
  count P (add_row v t)
  = if decide (P (next_id t, v)) then S (count P t) else count P t.
Proof. apply count_insert_fresh, next_id_fresh. Qed.

Lemma count_delete P `{!∀ x, Decision (P x)} t k v :
  t !! k = Some v →
  count P t
  = if decide (P (k, v)) then S (count P (delete k t))
    else count P (delete k t).
Proof.
  intros Hk. unfold count.
  rewrite <-(map_to_list_delete t k v Hk), filter_cons.
  by destruct (decide (P (k, v))).
Qed.

Lemma select_perm P `{!∀ x, Decision (P x)} t :
  select P t ≡ₚ filter P (map_to_list t).
Proof. apply merge_sort_Permutation. Qed.

Lemma first_None_count P `{!∀ x, Decision (P x)} t :
  first P t = None ↔ count P t = 0%nat.
Proof.
  unfold first, count. rewrite <-(select_perm P t).
  destruct (select P t); simpl; split; intros; done.
Qed.

Lemma first_Some_lookup P `{!∀ x, Decision (P x)} t r :
  first P t = Some r → t !! r.1 = Some r.2 ∧ P r.
Proof.
  unfold first. intros Hh.
  assert (r ∈ select P t) as Hin.
  { destruct (select P t); simplify_eq/=. apply list_elem_of_here. }
  rewrite (select_perm P t) in Hin.
  apply list_elem_of_filter in Hin as [HP Hin].
  split; [|done]. destruct r. by apply elem_of_map_to_list.
Qed.

Lemma first_Some_count P `{!∀ x, Decision (P x)} t r :
  first P t = Some r → count P t ≠ 0%nat.
Proof. intros Hr Hc. apply first_None_count in Hc. congruence. Qed.

(** A fresh matching row in a table with no match is the one found. *)
Lemma first_insert_only P `{!∀ x, Decision (P x)} t k v :
  t !! k = None → count P t = 0%nat → P (k, v) →
  first P (<[k:=v]> t) = Some (k, v).
Proof.
  intros Hk Hc HP. unfold first.
  assert (select P (<[k:=v]> t) ≡ₚ [(k, v)]) as Hs.
  { rewrite select_perm, (map_to_list_insert t k v Hk), filter_cons.
    rewrite decide_True by done.
    unfold count in Hc. apply nil_length_inv in Hc. by rewrite Hc. }
  apply Permutation_singleton_r in Hs. by rewrite Hs.
Qed.

#[global] Instance by_id_total : Total (by_id (A:=A)).
Proof. intros x y. unfold by_id. lia. Qed.

#[global] Instance by_id_trans : Transitive (by_id (A:=A)).
Proof. intros x y z. unfold by_id. lia. Qed.

(** The row found has the least primary key among the matching rows. *)
Lemma first_least P `{!∀ x, Decision (P x)} t r k v :
  first P t = Some r → t !! k = Some v → P (k, v) → r.1 ≤ k.
Proof.
  unfold first. intros Hh Hl HP.
  assert ((k, v) ∈ select P t) as Hin.
  { rewrite select_perm. apply list_elem_of_filter.
    split; [done|by apply elem_of_map_to_list]. }
  assert (StronglySorted by_id (select P t)) as Hs
    by (apply StronglySorted_merge_sort; apply _).
  destruct (select P t) as [|h l]; simplify_eq/=.
  apply elem_of_cons in Hin as [<-|Hin]; [done|].
  apply StronglySorted_inv in Hs as [_ Hs].
  rewrite Forall_forall in Hs. exact (Hs _ Hin).
Qed.

End QueryFacts.

(** ** One step of a toggle *)

Section Toggle.
Context {A : Type}.
Implicit Types (t : gmap Z A) (P Q : Z * A → Prop).

(** No row of the pair: the toggle adds one, which both queries count. *)
Lemma toggle_absent P Q `{!∀ x, Decision (P x)} `{!∀ x, Decision (Q x)}
    t new :
  count P t = 0%nat → (∀ k, P (k, new)) → (∀ k, Q (k, new)) →
  first P t = None
  ∧ count P (add_row new t) = 1%nat
  ∧ count Q (add_row new t) = S (count Q t).
Proof.
  intros Hc HP HQ. split; [by apply first_None_count|].
  rewrite !count_add_row, !decide_True by done. by rewrite Hc.
Qed.

(** A row of the pair: the toggle deletes the one found, which both
    queries counted. *)
Lemma toggle_present P Q `{!∀ x, Decision (P x)} `{!∀ x, Decision (Q x)} t :
  count P t ≠ 0%nat → (∀ x, P x → Q x) →
  ∃ e, first P t = Some e
       ∧ S (count P (delete e.1 t)) = count P t
       ∧ S (count Q (delete e.1 t)) = count Q t.
Proof.
  intros Hc HPQ.
  destruct (first P t) as [e|] eqn:E.
  - exists e. split; [done|].
    apply first_Some_lookup in E as [Hl HP]. destruct e as [k v]; simpl in *.
    rewrite (count_delete P t k v Hl), (count_delete Q t k v Hl).
    rewrite !decide_True by auto. done.
  - by apply first_None_count in E.
Qed.

End Toggle.

Lemma like_post_absent db request post_id now :
  let db' := (like_post db request post_id now).2 in
  pair_likes db post_id (session_user_id request) = 0%nat →
  pair_likes db' post_id (session_user_id request) = 1%nat
  ∧ likes_count db' post_id = S (likes_count db post_id).
Proof.
  intros db' Hc. subst db'. unfold pair_likes, likes_count, like_post in *.
  edestruct (toggle_absent
    (λ r : Z * Like, like_post_id r.2 = post_id
                     ∧ like_user_id r.2 = session_user_id request)
    (λ r : Z * Like, like_post_id r.2 = post_id)) as (-> & H1 & H2);
    [exact Hc| | |split; [exact H1|exact H2]]; done.
Qed.

Lemma like_post_present db request post_id now :
  let db' := (like_post db request post_id now).2 in
  pair_likes db post_id (session_user_id request) ≠ 0%nat →
  S (pair_likes db' post_id (session_user_id request))
  = pair_likes db post_id (session_user_id request)
  ∧ S (likes_count db' post_id) = likes_count db post_id.
Proof.
  intros db' Hc. subst db'. unfold pair_likes, likes_count, like_post in *.
  edestruct (toggle_present
    (λ r : Z * Like, like_post_id r.2 = post_id
                     ∧ like_user_id r.2 = session_user_id request)
    (λ r : Z * Like, like_post_id r.2 = post_id)) as (e & -> & H1 & H2);
    [exact Hc|by intros ? [? ?]|done].
Qed.

Lemma follow_consultant_absent db request consultant_id now :
  let db' := (follow_consultant db request consultant_id now).2 in
  pair_follows db consultant_id (session_user_id request) = 0%nat →
  pair_follows db' consultant_id (session_user_id request) = 1%nat
  ∧ followers_count db' consultant_id = S (followers_count db consultant_id).
Proof.
  intros db' Hc. subst db'.
  unfold pair_follows, followers_count, follow_consultant in *.
  edestruct (toggle_absent
    (λ r : Z * Follower, follower_consultant_id r.2 = consultant_id
                         ∧ follower_user_id r.2 = session_user_id request)
    (λ r : Z * Follower, follower_consultant_id r.2 = consultant_id))
    as (-> & H1 & H2);
    [exact Hc| | |split; [exact H1|exact H2]]; done.
Qed.

Lemma follow_consultant_present db request consultant_id now :
  let db' := (follow_consultant db request consultant_id now).2 in
  pair_follows db consultant_id (session_user_id request) ≠ 0%nat →
  S (pair_follows db' consultant_id (session_user_id request))
  = pair_follows db consultant_id (session_user_id request)
  ∧ S (followers_count db' consultant_id) = followers_count db consultant_id.
Proof.
  intros db' Hc. subst db'.
  unfold pair_follows, followers_count, follow_consultant in *.
  edestruct (toggle_present
    (λ r : Z * Follower, follower_consultant_id r.2 = consultant_id
                         ∧ follower_user_id r.2 = session_user_id request)
    (λ r : Z * Follower, follower_consultant_id r.2 = consultant_id))
    as (e & -> & H1 & H2);
    [exact Hc|by intros ? [? ?]|done].
Qed.

(** ** The at-most-one invariant

    The hypothesis of the toggle theorem holds in the empty store and is
    kept by the routes that write the likes and followers tables. *)

Section Unique.
Context {A : Type}.
Implicit Types (t : gmap Z A) (P : Z * A → Prop).

Lemma count_delete_le P `{!∀ x, Decision (P x)} t k :
  (count P (delete k t) ≤ count P t)%nat.
Proof.
  destruct (t !! k) as [v|] eqn:E.
  - rewrite (count_delete P t k v E). destruct (decide (P (k, v))); lia.
  - by rewrite delete_id.
Qed.

Lemma count_filter_le P `{!∀ x, Decision (P x)}
    (R : Z * A → Prop) `{!∀ x, Decision (R x)} t :
  (count P (filter R t) ≤ count P t)%nat.
Proof.
  unfold count. apply submseteq_length, NoDup_submseteq.
  - apply NoDup_filter, NoDup_map_to_list.
  - intros [k v]. rewrite !list_elem_of_filter, !elem_of_map_to_list.
    intros [HP Hl]. split; [done|].
    by apply map_lookup_filter_Some in Hl as [? _].
Qed.

End Unique.

Lemma pairs_unique_empty : pairs_unique empty_store.
Proof. split; intros; vm_compute; lia. Qed.

Lemma like_post_followers db request post_id now :
  followers (like_post db request post_id now).2 = followers db.
Proof. unfold like_post. by destruct (first _ (likes db)). Qed.

Lemma follow_consultant_likes db request consultant_id now :
  likes (follow_consultant db request consultant_id now).2 = likes db.
Proof. unfold follow_consultant. by destruct (first _ (followers db)). Qed.

Lemma delete_post_followers db request post_id :
  followers (delete_post db request post_id).2 = followers db.
Proof.
  unfold delete_post. destruct (negb _); [done|].
  destruct (posts db !! post_id); [|done]. by destruct (bool_decide _).
Qed.

Lemma like_post_pairs_unique db request post_id now :
  pairs_unique db → pairs_unique (like_post db request post_id now).2.
Proof.
  intros [Hl Hf]. split.
  2: { intros c u. unfold pair_follows. rewrite like_post_followers.
       apply Hf. }
  intros p u.
  specialize (Hl p u). unfold pair_likes, like_post in *.
  destruct (first _ (likes db)) as [e|] eqn:E; cbn [snd likes set_likes].
  - etrans; [apply count_delete_le|exact Hl].
  - rewrite count_add_row. destruct (decide _) as [[Hp Hu]|]; [|exact Hl].
    cbn [snd like_post_id like_user_id] in Hp, Hu. subst p u.
    apply first_None_count in E. by rewrite E.
Qed.

Lemma follow_consultant_pairs_unique db request consultant_id now :
  pairs_unique db →
  pairs_unique (follow_consultant db request consultant_id now).2.
Proof.
  intros [Hl Hf]. split.
  { intros p u. unfold pair_likes. rewrite follow_consultant_likes.
    apply Hl. }
  intros c u. specialize (Hf c u). unfold pair_follows, follow_consultant in *.
  destruct (first _ (followers db)) as [e|] eqn:E;
    cbn [snd followers set_followers].
  - etrans; [apply count_delete_le|exact Hf].
  - rewrite count_add_row. destruct (decide _) as [[Hc Hu]|]; [|exact Hf].
    cbn [snd follower_consultant_id follower_user_id] in Hc, Hu. subst c u.
    apply first_None_count in E. by rewrite E.
Qed.

Lemma delete_post_pairs_unique db request post_id :
  pairs_unique db → pairs_unique (delete_post db request post_id).2.
Proof.
  intros [Hl Hf]. split.
  2: { intros c u. unfold pair_follows. rewrite delete_post_followers.
       apply Hf. }
  unfold delete_post.
  destruct (negb _); [done|].
  destruct (posts db !! post_id); [|done].
  destruct (bool_decide _); [done|].
  intros p u. specialize (Hl p u).
  unfold pair_likes in *. cbn [snd likes set_posts set_likes].
  etrans; [apply count_filter_le|exact Hl].
Qed.

(** ** Likes and follows *)

(** C1. For every post, consultant and actor (a user id or none) with at
    most one Like, respectively Follower, row of the pair in the store: one
    call of like_post flips whether the pair is liked and changes the
    post's like count by +1 when no like of the pair existed and by -1
    when one did, and a second call right after restores both the like
    state of the pair and the like count; follow_consultant does the same
    to the follow state of (consultant, actor) and the follower count. *)
Theorem toggle_twice_restores db request post_id consultant_id t1 t2 :
  let actor := session_user_id request in
  let l1 := (like_post db request post_id t1).2 in
  let l2 := (like_post l1 request post_id t2).2 in
  let f1 := (follow_consultant db request consultant_id t1).2 in
  let f2 := (follow_consultant f1 request consultant_id t2).2 in
  (pair_likes db post_id actor ≤ 1)%nat →
  (pair_follows db consultant_id actor ≤ 1)%nat →
  toggles (liked db post_id actor) (liked l1 post_id actor)
    (liked l2 post_id actor)
    (likes_count db post_id) (likes_count l1 post_id)
    (likes_count l2 post_id)
  ∧ toggles (following db consultant_id actor)
      (following f1 consultant_id actor)
      (following f2 consultant_id actor)
      (followers_count db consultant_id) (followers_count f1 consultant_id)
      (followers_count f2 consultant_id).
Proof.
  intros actor l1 l2 f1 f2 Hl Hf. subst actor l1 l2 f1 f2.
  unfold toggles, liked, following. split.
  - destruct (decide (pair_likes db post_id (session_user_id request)
                      = 0%nat)) as [H0|H0].
    + destruct (like_post_absent db request post_id t1 H0) as [Hp1 Hc1].
      destruct (like_post_present (like_post db request post_id t1).2
                  request post_id t2) as [Hp2 Hc2]; [by rewrite Hp1|].
      rewrite Hp1 in Hp2. injection Hp2 as Hp2.
      rewrite H0, Hp1, Hp2. repeat split; try done; lia.
    + destruct (like_post_present db request post_id t1 H0) as [Hp1 Hc1].
      assert (pair_likes (like_post db request post_id t1).2 post_id
                (session_user_id request) = 0%nat) as Hz by lia.
      destruct (like_post_absent (like_post db request post_id t1).2
                  request post_id t2 Hz) as [Hp2 Hc2].
      rewrite Hz, Hp2.
      rewrite !(bool_decide_true _ H0).
      repeat split; try done; lia.
  - destruct (decide (pair_follows db consultant_id (session_user_id request)
                      = 0%nat)) as [H0|H0].
    + destruct (follow_consultant_absent db request consultant_id t1 H0)
        as [Hp1 Hc1].
      destruct (follow_consultant_present
                  (follow_consultant db request consultant_id t1).2
                  request consultant_id t2) as [Hp2 Hc2]; [by rewrite Hp1|].
      rewrite Hp1 in Hp2. injection Hp2 as Hp2.
      rewrite H0, Hp1, Hp2. repeat split; try done; lia.
    + destruct (follow_consultant_present db request consultant_id t1 H0)
        as [Hp1 Hc1].
      assert (pair_follows (follow_consultant db request consultant_id t1).2
                consultant_id (session_user_id request) = 0%nat) as Hz by lia.
      destruct (follow_consultant_absent
                  (follow_consultant db request consultant_id t1).2
                  request consultant_id t2 Hz) as [Hp2 Hc2].
      rewrite Hz, Hp2.
      rewrite !(bool_decide_true _ H0).
      repeat split; try done; lia.
Qed.

Lemma toggle_twice_restores_witness :
  (pair_likes one_like 1 (Some 7%Z) ≤ 1)%nat
  ∧ (pair_follows one_like 1 (Some 7%Z) ≤ 1)%nat
  ∧ likes_count one_like 1 = 1%nat
  ∧ likes_count (like_post one_like as_user_7 1 102).2 1 = 0%nat
  ∧ likes_count
      (like_post (like_post one_like as_user_7 1 102).2 as_user_7 1 103).2 1
    = 1%nat.
Proof.
  assert (pair_likes one_like 1 (Some 7%Z) ≤ 1)%nat as H1
    by (vm_compute; lia).
  assert (pair_follows one_like 1 (Some 7%Z) ≤ 1)%nat as H2
    by (vm_compute; lia).
  destruct (toggle_twice_restores one_like as_user_7 1 1 102 103 H1 H2)
    as [(_ & _ & Hback & _ & Hdown) _].
  assert (likes_count one_like 1 = 1%nat) as Hone by (vm_compute; done).
  split; [exact H1|]. split; [exact H2|]. split; [exact Hone|].
  split; [|by rewrite Hback].
  assert (liked one_like 1 (Some 7) = true) as Hliked by (vm_compute; done).
  specialize (Hdown Hliked). rewrite Hone in Hdown. lia.
Defined.

(** C2, as stated, fails: liking a post id that names no post, with no like
    of the pair in the store, raises nothing and adds a Like row. *)
Lemma like_missing_post_not_rejected :
  ¬ (∀ db request post_id now,
       posts db !! post_id = None →
       pair_likes db post_id (session_user_id request) = 0%nat →
       (∃ detail,
          (like_post db request post_id now).1 = HTTPException 404 detail)
       ∧ likes (like_post db request post_id now).2 = likes db).
Proof.
  intros H.
  destruct (H one_consultant as_user_7 5 0) as [[detail Hd] _].
  - vm_compute. reflexivity.
  - vm_compute. reflexivity.
  - vm_compute in Hd. discriminate Hd.
Qed.

(** C2, amended. When like_post is called for a post id that the store can
    hold (a signed 64-bit integer) and the store holds no like of the
    (post, actor) pair, the call does not fail, whether the post exists or
    not: it returns the redirect and adds exactly one Like row, under a key
    not in use, for that post and actor; the row's consultant reference is
    the owning consultant of the post when the post exists and is null when
    it does not. *)
Theorem like_post_creates db request post_id now :
  storable post_id = true →
  pair_likes db post_id (session_user_id request) = 0%nat →
  ∃ id like,
    like_post db request post_id now
    = (Returns (RedirectResponse (back request) 303),
       set_likes (insert id like) db)
    ∧ likes db !! id = None
    ∧ like_post_id like = post_id
    ∧ like_user_id like = session_user_id request
    ∧ like_consultant_id like = post_consultant_id <$> posts db !! post_id.
Proof.
  intros _ Hc. unfold pair_likes in Hc. apply first_None_count in Hc.
  unfold like_post. rewrite Hc.
  eexists (next_id (likes db)), _. split; [reflexivity|].
  split; [apply next_id_fresh|]. simpl.
  do 2 (split; [reflexivity|]). by destruct (posts db !! post_id).
Qed.

Lemma like_post_creates_witness :
  storable 1 = true
  ∧ pair_likes one_post 1 (Some 7) = 0%nat
  ∧ ∃ id like,
      like_post one_post as_user_7 1 101
      = (Returns (RedirectResponse "/consultants" 303),
         set_likes (insert id like) one_post)
      ∧ like_consultant_id like = Some 1.
Proof.
  assert (pair_likes one_post 1 (Some 7) = 0%nat) as H0
    by (vm_compute; reflexivity).
  split; [reflexivity|]. split; [exact H0|].
  destruct (like_post_creates one_post as_user_7 1 101 eq_refl H0)
    as (id & like & Heq & _ & _ & _ & Hc).
  exists id, like. split; [exact Heq|].
  rewrite Hc. vm_compute. reflexivity.
Defined.

(** ** Credentials *)

Lemma count_lookup {A} (P : Z * A → Prop) `{!∀ x, Decision (P x)}
    (t : gmap Z A) k v :
  t !! k = Some v → P (k, v) → count P t ≠ 0%nat.
Proof.
  intros Hl HP. rewrite (count_delete P t k v Hl), decide_True by done. lia.
Qed.

Section Credentials.
Variable sha256_hexdigest : string → string.

Local Abbreviation register_user := (Auth.register_user sha256_hexdigest).
Local Abbreviation login_user := (Auth.login_user sha256_hexdigest).
Local Abbreviation verify_password :=
  (Auth.verify_password sha256_hexdigest).

Lemma verify_registered_password password :
  verify_password password
    (Auth.hash_password sha256_hexdigest (PyStr.strip password)) = true.
Proof. unfold Auth.verify_password. by apply bool_decide_eq_true. Qed.

Lemma register_user_taken db email password :
  count (λ r : Z * User, user_email r.2 = PyStr.lower (PyStr.strip email))
    (users db) ≠ 0%nat →
  register_user db email password
  = (inl (Auth.Value_error "Email already registered. Please log in."), db).
Proof.
  intros Hc. unfold Auth.register_user.
  destruct (first _ (users db)) eqn:E; [done|].
  by apply first_None_count in E.
Qed.

(** C3. For every email that no user row holds in normalised form, and
    every password, register_user succeeds and creates a user row u under
    an id not in use, and login_user on the resulting store with the same
    two strings succeeds and returns that same row u (the same id). *)
Theorem register_then_login db email password :
  Auth.get_current_user db email = None →
  ∃ u db',
    register_user db email password = (inr u, db')
    ∧ login_user db' email password = Some u
    ∧ users db !! u.1 = None
    ∧ users db' !! u.1 = Some u.2.
Proof.
  unfold Auth.get_current_user, Auth.register_user. intros E. rewrite E.
  eexists _, _. split; [reflexivity|].
  apply first_None_count in E.
  unfold Auth.login_user. cbn [users set_users fst snd]. unfold add_row.
  rewrite (first_insert_only _ (users db) _ _ (next_id_fresh _) E)
    by reflexivity.
  cbn [snd user_hashed_password].
  rewrite verify_registered_password. cbn [negb].
  split; [reflexivity|]. split; [apply next_id_fresh|apply lookup_insert_eq].
Qed.

(** C4. register_user raises its ValueError (the duplicate-email failure),
    and leaves the store as it was, whenever the users table holds a row
    whose stored email equals the new email trimmed and lowercased; so
    after any call of register_user with an email, a call with an email
    that differs from it only in case or surrounding whitespace fails. *)
Theorem register_duplicate_email db email password :
  (∀ id u,
     users db !! id = Some u →
     user_email u = PyStr.lower (PyStr.strip email) →
     register_user db email password
     = (inl (Auth.Value_error "Email already registered. Please log in."),
        db))
  ∧ (∀ email' password',
       PyStr.lower (PyStr.strip email') = PyStr.lower (PyStr.strip email) →
       let db1 := (register_user db email password).2 in
       register_user db1 email' password'
       = (inl (Auth.Value_error "Email already registered. Please log in."),
          db1)).
Proof.
  split.
  - intros id u Hl He. apply register_user_taken.
    by apply (count_lookup _ (users db) id u).
  - intros email' password' Hn db1. apply register_user_taken.
    rewrite Hn. subst db1. unfold Auth.register_user.
    destruct (first _ (users db)) as [r|] eqn:E; cbn [snd].
    + by apply first_Some_count in E.
    + cbn [users set_users]. unfold add_row.
      rewrite count_insert_fresh by apply next_id_fresh.
      rewrite decide_True by reflexivity. lia.
Qed.

(** C5. login_user is a total function that returns None or a user row; it
    returns None exactly when no user has the normalised email or the
    password does not verify against the row found. In particular a run
    with an unknown email and a run with a known email and a wrong
    password give the caller the same result, None. *)
Theorem login_failures_alike db :
  (∀ email password,
     login_user db email password = None
     ↔ Auth.get_current_user db email = None
       ∨ ∃ user, Auth.get_current_user db email = Some user
                 ∧ verify_password password (user_hashed_password user.2)
                   = false)
  ∧ (∀ email1 password1 email2 password2 user,
       Auth.get_current_user db email1 = None →
       Auth.get_current_user db email2 = Some user →
       verify_password password2 (user_hashed_password user.2) = false →
       login_user db email1 password1 = None
       ∧ login_user db email2 password2 = login_user db email1 password1).
Proof.
  assert (∀ email password,
     login_user db email password = None
     ↔ Auth.get_current_user db email = None
       ∨ ∃ user, Auth.get_current_user db email = Some user
                 ∧ verify_password password (user_hashed_password user.2)
                   = false) as Hchar.
  { intros email password. unfold Auth.login_user, Auth.get_current_user.
    destruct (first _ (users db)) as [user|]; [|by split; [left|]].
    destruct (verify_password password _) eqn:Ev; cbn [negb]; split.
    - done.
    - intros [?|(user' & [= <-] & Hv)]; congruence.
    - intros _. right. by exists user.
    - done. }
  split; [exact Hchar|].
  intros email1 password1 email2 password2 user H1 H2 Hv.
  assert (login_user db email1 password1 = None) as ->
    by (apply Hchar; by left).
  split; [done|]. apply Hchar. right. by exists user.
Qed.

End Credentials.

Lemma register_then_login_witness :
  Auth.get_current_user empty_store " Ann@Example.org " = None
  ∧ Auth.register_user tag_digest empty_store " Ann@Example.org " " s3cret "
    = (inr ann, ann_registered)
  ∧ Auth.login_user tag_digest ann_registered " Ann@Example.org " " s3cret "
    = Some ann.
Proof.
  assert (Auth.get_current_user empty_store " Ann@Example.org " = None)
    as Hnew by (vm_compute; reflexivity).
  destruct (register_then_login tag_digest empty_store
              " Ann@Example.org " " s3cret " Hnew)
    as (u & db' & Hreg & Hlogin & _).
  assert (Auth.register_user tag_digest empty_store
            " Ann@Example.org " " s3cret " = (inr ann, ann_registered)) as H
    by (vm_compute; reflexivity).
  rewrite H in Hreg. injection Hreg as <- <-.
  split; [exact Hnew|]. split; [exact H|exact Hlogin].
Defined.

Lemma register_duplicate_email_witness :
  users ann_registered !! 1 = Some ann.2
  ∧ Auth.register_user tag_digest ann_registered "ANN@example.org  " "other"
    = (inl (Auth.Value_error "Email already registered. Please log in."),
       ann_registered).
Proof.
  assert (users ann_registered !! 1 = Some ann.2) as H
    by (vm_compute; reflexivity).
  split; [exact H|].
  exact (proj1 (register_duplicate_email tag_digest ann_registered
                  "ANN@example.org  " "other") 1 ann.2 H eq_refl).
Defined.

Lemma login_failures_alike_witness :
  Auth.login_user tag_digest ann_registered "bob@example.org" "s3cret" = None
  ∧ Auth.login_user tag_digest ann_registered "ann@example.org" "guess"
    = Auth.login_user tag_digest ann_registered "bob@example.org" "s3cret".
Proof.
  apply (proj2 (login_failures_alike tag_digest ann_registered)
           _ _ _ _ ann); vm_compute; reflexivity.
Defined.

(** ** Whitespace *)

Lemma lstrip_whitespace_only s :
  PyStr.whitespace_only s = true → PyStr.lstrip s = EmptyString.
Proof.
  induction s as [|c s IH]; [done|]. simpl.
  destruct (PyStr.isspace c); simpl; [exact IH|done].
Qed.

Lemma lstrip_starts_solid s :
  PyStr.whitespace_only s = false →
  ∃ c r, PyStr.lstrip s = String c r ∧ PyStr.isspace c = false.
Proof.
  induction s as [|c s IH]; [done|]. simpl.
  destruct (PyStr.isspace c) eqn:Ec; simpl; [exact IH|].
  intros _. by exists c, s.
Qed.

Lemma rstrip_keeps_solid c r :
  PyStr.isspace c = false → PyStr.rstrip (String c r) ≠ EmptyString.
Proof.
  intros Ec. simpl. rewrite Ec. by destruct (PyStr.rstrip r).
Qed.

(** [s.strip()] is empty exactly for the whitespace-only strings. *)
Lemma strip_empty_iff s :
  PyStr.strip s = EmptyString ↔ PyStr.whitespace_only s = true.
Proof.
  unfold PyStr.strip. split.
  - intros Hs. destruct (PyStr.whitespace_only s) eqn:E; [done|].
    destruct (lstrip_starts_solid s E) as (c & r & Hl & Hc).
    rewrite Hl in Hs. by apply rstrip_keeps_solid in Hs.
  - intros Hw. by rewrite lstrip_whitespace_only.
Qed.

(** The guard of [comment_post] is the whitespace-only test. *)
Lemma comment_guard text :
  negb (PyStr.truthy text) || negb (PyStr.truthy (PyStr.strip text))
  = PyStr.whitespace_only text.
Proof.
  destruct (PyStr.whitespace_only text) eqn:E.
  - apply strip_empty_iff in E. rewrite E. simpl. apply orb_true_r.
  - assert (PyStr.strip text ≠ EmptyString) as Hs.
    { intros Hs. apply strip_empty_iff in Hs. congruence. }
    destruct text; [done|]. simpl. by destruct (PyStr.strip _).
Qed.

(** ** Comments *)




(** On a text that is not empty and an id that the store can hold, the
    request runs the body of comment_post. *)
Lemma comment_post_route_body db request post_id text now :
  text ≠ EmptyString →
  storable post_id = true →
  comment_post_route db request post_id (Some text) now
  = (Ran (comment_post db request post_id text now).1,
     (comment_post db request post_id text now).2).
Proof.
  intros Hne Hs. unfold comment_post_route, comment_post.
  cbn [truthy_str default from_option id].
  assert (PyStr.truthy text = true) as Ht by by destruct text.
  rewrite Ht, Hs. cbn [negb orb].
  destruct (negb (PyStr.truthy (PyStr.strip text))); [reflexivity|].
  destruct (posts db !! post_id); reflexivity.
Qed.

(** C9. In comment_post the text check comes before the post lookup: for
    every actor, a whitespace-only comment on a post id that names no post
    returns the redirect with the store unchanged instead of raising, and
    the 404 error is raised only for text that is not whitespace-only (and
    then only when the post is missing). *)
Theorem comment_text_checked_first db request post_id text now :
  (PyStr.whitespace_only text = true →
   posts db !! post_id = None →
   comment_post db request post_id text now
   = (Returns (RedirectResponse (back request) 303), db))
  ∧ (∀ detail,
       (comment_post db request post_id text now).1
       = HTTPException 404 detail →
       PyStr.whitespace_only text = false ∧ posts db !! post_id = None).
Proof.
  unfold comment_post. rewrite comment_guard. split.
  - by intros ->.
  - intros detail. destruct (PyStr.whitespace_only text); [done|].
    by destruct (posts db !! post_id).
Qed.

Lemma comment_text_checked_first_witness :
  comment_post one_post as_user_7 9 " " 102
  = (Returns (RedirectResponse "/consultants" 303), one_post)
  ∧ PyStr.whitespace_only "Great tip!" = false.
Proof.
  destruct (comment_text_checked_first one_post as_user_7 9 " " 102)
    as [Hdrop _].
  destruct (comment_text_checked_first one_post as_user_7 9 "Great tip!" 102)
    as [_ Honly].
  split.
  - apply Hdrop; vm_compute; reflexivity.
  - apply (Honly "Post not found"). vm_compute. reflexivity.
Defined.

(** ** Ownership *)

(** C6. With a consultant session whose id is not the id of the consultant
    that owns the post, edit_post and delete_post raise the 403 error and
    return the store exactly as it was: the post row (content, media path,
    media type, timestamp), every Like and Comment row and the uploaded
    files are unchanged, so after the refused delete_post the post and its
    likes and comments still exist. *)
Theorem non_owner_forbidden db request post_id new_bio new_media now
    consultant_id post :
  session_consultant_id request = Some consultant_id →
  consultant_id ≠ 0 →
  posts db !! post_id = Some post →
  post_consultant_id post ≠ consultant_id →
  edit_post db request post_id new_bio new_media now
  = (HTTPException 403 "Not authorized to edit", db)
  ∧ delete_post db request post_id
    = (HTTPException 403 "Not authorized to delete", db).
Proof.
  intros Hs Hnz Hp Hne. unfold edit_post, delete_post.
  rewrite Hs, Hp. cbn [truthy_id].
  assert ((consultant_id =? 0) = false) as -> by lia. cbn [negb].
  rewrite bool_decide_true by congruence. done.
Qed.

Lemma non_owner_forbidden_witness :
  edit_post one_like as_consultant_2 1 "Eat less fiber" (Some "x.mp4") 200
  = (HTTPException 403 "Not authorized to edit", one_like)
  ∧ delete_post one_like as_consultant_2 1
    = (HTTPException 403 "Not authorized to delete", one_like).
Proof.
  apply (non_owner_forbidden one_like as_consultant_2 1 "Eat less fiber"
           (Some "x.mp4") 200 2 nutritionist_post).
  - reflexivity.
  - lia.
  - vm_compute. reflexivity.
  - simpl. lia.
Defined.

(** ** The feed query *)

#[global] Instance newest_first_total : Total newest_first.
Proof. intros x y. unfold newest_first. lia. Qed.

#[global] Instance newest_first_trans : Transitive newest_first.
Proof. intros x y z. unfold newest_first. lia. Qed.

Lemma feed_posts_sorted db q specialization :
  StronglySorted newest_first (feed_posts db q specialization).
Proof. apply StronglySorted_merge_sort; apply _. Qed.

Lemma feed_posts_perm db q specialization :
  feed_posts db q specialization
  ≡ₚ filter (λ r, feed_row db q specialization r = true)
       (map_to_list (posts db)).
Proof. apply merge_sort_Permutation. Qed.


Lemma elem_of_feed_posts db q specialization r :
  r ∈ feed_posts db q specialization
  ↔ posts db !! r.1 = Some r.2 ∧ feed_row db q specialization r = true.
Proof.
  rewrite feed_posts_perm, list_elem_of_filter.
  destruct r as [k p]. rewrite elem_of_map_to_list. simpl. tauto.
Qed.

(** The loop over the query result never meets a missing consultant, and
    keeps the posts in their order. *)
Lemma consultants_page_posts db q specialization :
  ∃ items,
    consultants_page db q specialization = Some items
    ∧ item_post <$> items = feed_posts db q specialization.
Proof.
  unfold consultants_page.
  assert (Forall (λ r, feed_row db q specialization r = true)
            (feed_posts db q specialization)) as Hall.
  { apply Forall_forall. intros r Hr. by apply elem_of_feed_posts in Hr as []. }
  induction Hall as [|r l Hr _ (items & Hm & Hp)].
  - by exists [].
  - unfold feed_row in Hr. cbn [mapM]. rewrite Hm. unfold feed_item.
    destruct (consultants db !! post_consultant_id r.2) as [c|]; [|done].
    eexists (_ :: items). split; [reflexivity|].
    rewrite fmap_cons. by rewrite Hp.
Qed.

(** A row newer than every other row the query returns comes first. *)
Lemma feed_posts_head db q specialization r :
  r ∈ feed_posts db q specialization →
  (∀ r', r' ∈ feed_posts db q specialization → r' ≠ r →
         post_timestamp r'.2 < post_timestamp r.2) →
  head (feed_posts db q specialization) = Some r.
Proof.
  intros Hin Hnew.
  pose proof (feed_posts_sorted db q specialization) as Hs.
  destruct (feed_posts db q specialization) as [|h l]; [by inv Hin|].
  simpl. f_equal. destruct (decide (h = r)) as [|Hne]; [done|].
  apply elem_of_cons in Hin as [->|Hin]; [done|].
  apply StronglySorted_inv in Hs as [_ Hs].
  rewrite Forall_forall in Hs. specialize (Hs r Hin).
  unfold newest_first in Hs.
  specialize (Hnew h (list_elem_of_here _ _) Hne). lia.
Qed.

(** ** Editing a post *)

Lemma edit_post_owner db request post_id new_bio new_media now post :
  session_consultant_id request = Some (post_consultant_id post) →
  post_consultant_id post ≠ 0 →
  posts db !! post_id = Some post →
  ∃ media_path media_type files,
    edit_post db request post_id new_bio new_media now
    = (Returns (RedirectResponse "/consultant_post" 303),
       set_posts
         (insert post_id
            {| post_consultant_id := post_consultant_id post;
               post_content := new_bio;
               post_media_path := media_path;
               post_media_type := media_type;
               post_timestamp := now |})
         (set_uploads (λ _, files) db))
    ∧ (media_path, media_type, files)
      = match new_media with
        | Some fname =>
            (Some fname, Some (media_type_of fname),
             remove_media (post_media_path post) (uploads db) ∪ {[fname]})
        | None => (post_media_path post, post_media_type post, uploads db)
        end.
Proof.
  intros Hs Hnz Hp. unfold edit_post. rewrite Hs, Hp. cbn [truthy_id].
  assert ((post_consultant_id post =? 0) = false) as -> by lia. cbn [negb].
  rewrite bool_decide_false by (intros H; by apply H).
  destruct new_media; eexists _, _, _; split; reflexivity.
Qed.

(** C10. A successful edit_post (a consultant session that owns the post)
    stores the time of the edit as the post's timestamp, whether or not new
    media comes with it. Consequently, when every other post is older than
    the edit, the edited post is the first row of any feed query it passes;
    and the result of the edit does not depend on the timestamp the post
    had before, so the creation time is lost. *)
Theorem edit_post_restamps db request post_id new_bio new_media now post :
  session_consultant_id request = Some (post_consultant_id post) →
  post_consultant_id post ≠ 0 →
  posts db !! post_id = Some post →
  let result := edit_post db request post_id new_bio new_media now in
  result.1 = Returns (RedirectResponse "/consultant_post" 303)
  ∧ (∃ post',
       posts result.2 !! post_id = Some post'
       ∧ post_timestamp post' = now
       ∧ post_content post' = new_bio
       ∧ ∀ q specialization,
           feed_row result.2 q specialization (post_id, post') = true →
           (∀ k p, posts db !! k = Some p → k ≠ post_id →
                   post_timestamp p < now) →
           head (feed_posts result.2 q specialization)
           = Some (post_id, post'))
  ∧ (∀ t0,
       edit_post (set_posts (insert post_id (restamp t0 post)) db)
         request post_id new_bio new_media now
       = result).
Proof.
  intros Hs Hnz Hp result.
  destruct (edit_post_owner db request post_id new_bio new_media now post
              Hs Hnz Hp) as (mp & mt & files & Heq & Hm).
  subst result. split; [by rewrite Heq|]. split.
  - rewrite Heq. cbn [snd posts set_posts set_uploads].
    eexists. split; [apply lookup_insert_eq|].
    split; [reflexivity|]. split; [reflexivity|].
    intros q specialization Hrow Hold.
    apply feed_posts_head.
    + apply elem_of_feed_posts. split; [|exact Hrow].
      cbn [fst snd posts set_posts set_uploads]. apply lookup_insert_eq.
    + intros [k p] Hin Hne. apply elem_of_feed_posts in Hin as [Hl _].
      cbn [fst snd posts set_posts set_uploads] in Hl |- *.
      destruct (decide (k = post_id)) as [->|Hk].
      * rewrite lookup_insert_eq in Hl. congruence.
      * rewrite lookup_insert_ne in Hl by done. by apply (Hold k p).
  - intros t0.
    destruct (edit_post_owner
                (set_posts (insert post_id (restamp t0 post)) db)
                request post_id new_bio new_media now (restamp t0 post))
      as (mp' & mt' & files' & Heq' & Hm'); [exact Hs|exact Hnz| |].
    { cbn [posts set_posts]. apply lookup_insert_eq. }
    rewrite Heq, Heq'.
    cbn [restamp post_media_path post_media_type post_consultant_id
         uploads set_posts] in Hm'.
    rewrite <-Hm in Hm'. injection Hm' as -> -> ->.
    f_equal. unfold set_posts, set_uploads. cbn. f_equal.
    apply insert_insert_eq.
Qed.

Lemma edit_post_restamps_witness :
  (edit_post one_like as_consultant_1 1 "Eat more fibre" None 200).1
  = Returns (RedirectResponse "/consultant_post" 303)
  ∧ post_timestamp
      <$> posts (edit_post one_like as_consultant_1 1 "Eat more fibre"
                   None 200).2 !! 1
    = Some 200.
Proof.
  destruct (edit_post_restamps one_like as_consultant_1 1 "Eat more fibre"
              None 200 nutritionist_post)
    as (Hret & (post' & Hl & Ht & _) & _).
  - reflexivity.
  - simpl. lia.
  - vm_compute. reflexivity.
  - split; [exact Hret|]. rewrite Hl. simpl. by rewrite Ht.
Defined.

(** ** LIKE patterns and substrings *)

Lemma starts_with_prefix sub s :
  starts_with sub s = true ↔ ∃ post, s = sub +:+ post.
Proof.
  revert s. induction sub as [|a sub IH]; intros s; simpl.
  - split; [by exists s|done].
  - destruct s as [|b s]; [split; [done|by intros [? ?]]|].
    rewrite andb_true_iff, IH. split.
    + intros [Hab [post ->]]. apply Ascii.eqb_eq in Hab as ->. by exists post.
    + intros [post [= -> ->]]. split; [apply Ascii.eqb_refl|by exists post].
Qed.

Lemma contains_substring sub s : contains sub s = true ↔ substring sub s.
Proof.
  unfold substring. induction s as [|b s IH]; simpl.
  - rewrite orb_false_r, starts_with_prefix. split.
    + intros [post H]. by exists EmptyString, post.
    + intros ([|? ?] & post & H); [by exists post|done].
  - rewrite orb_true_iff, IH, starts_with_prefix. split.
    + intros [[post H]|(pre & post & ->)].
      * by exists EmptyString, post.
      * by exists (String b pre), post.
    + intros ([|c pre] & post & H).
      * left. by exists post.
      * right. injection H as -> ->. by exists pre, post.
Qed.










(** ** The specialization filter *)







(** * Further properties of the code *)

(** ** Trimming and lowercasing *)

Lemma rstrip_solid c r :
  PyStr.isspace c = false →
  PyStr.rstrip (String c r) = String c (PyStr.rstrip r).
Proof. intros Ec. simpl. rewrite Ec. by destruct (PyStr.rstrip r). Qed.

Lemma rstrip_idempotent s : PyStr.rstrip (PyStr.rstrip s) = PyStr.rstrip s.
Proof.
  induction s as [|c s IH]; [done|]. simpl.
  destruct (PyStr.rstrip s) as [|d r] eqn:E.
  - destruct (PyStr.isspace c) eqn:Ec; [done|]. simpl. by rewrite Ec.
  - change (PyStr.rstrip (String c (String d r)))
      with (match PyStr.rstrip (String d r) with
            | EmptyString =>
                if PyStr.isspace c then EmptyString
                else String c EmptyString
            | r' => String c r'
            end).
    by rewrite IH.
Qed.

Lemma lstrip_shape s :
  PyStr.lstrip s = EmptyString
  ∨ ∃ c r, PyStr.lstrip s = String c r ∧ PyStr.isspace c = false.
Proof.
  induction s as [|c s IH]; [by left|]. simpl.
  destruct (PyStr.isspace c) eqn:Ec; [exact IH|]. right. by exists c, s.
Qed.

(** What [strip] returns: nothing, or a string with a solid first
    character and an already trimmed rest. *)
Lemma strip_shape s :
  PyStr.strip s = EmptyString
  ∨ ∃ c r, PyStr.strip s = String c (PyStr.rstrip r)
           ∧ PyStr.isspace c = false.
Proof.
  unfold PyStr.strip. destruct (lstrip_shape s) as [->|(c & r & -> & Ec)].
  - by left.
  - right. exists c, r. by rewrite rstrip_solid.
Qed.

Lemma strip_idempotent s : PyStr.strip (PyStr.strip s) = PyStr.strip s.
Proof.
  destruct (strip_shape s) as [->|(c & r & -> & Ec)]; [done|].
  unfold PyStr.strip. cbn [PyStr.lstrip]. rewrite Ec.
  by rewrite rstrip_solid, rstrip_idempotent.
Qed.

Lemma lower_char_facts c :
  PyStr.lower_char (PyStr.lower_char c) = PyStr.lower_char c
  ∧ PyStr.isspace (PyStr.lower_char c) = PyStr.isspace c.
Proof. destruct c as [[] [] [] [] [] [] [] []]; vm_compute; done. Qed.

Lemma lower_idempotent s : PyStr.lower (PyStr.lower s) = PyStr.lower s.
Proof.
  induction s as [|c s IH]; [done|]. simpl.
  by rewrite (proj1 (lower_char_facts c)), IH.
Qed.

Lemma lstrip_lower s :
  PyStr.lstrip (PyStr.lower s) = PyStr.lower (PyStr.lstrip s).
Proof.
  induction s as [|c s IH]; [done|]. simpl.
  rewrite (proj2 (lower_char_facts c)).
  by destruct (PyStr.isspace c).
Qed.

Lemma rstrip_lower s :
  PyStr.rstrip (PyStr.lower s) = PyStr.lower (PyStr.rstrip s).
Proof.
  induction s as [|c s IH]; [done|]. simpl. rewrite IH.
  rewrite (proj2 (lower_char_facts c)).
  destruct (PyStr.rstrip s); simpl; [|done].
  by destruct (PyStr.isspace c).
Qed.

Lemma strip_lower s :
  PyStr.strip (PyStr.lower s) = PyStr.lower (PyStr.strip s).
Proof. unfold PyStr.strip. by rewrite lstrip_lower, rstrip_lower. Qed.

Lemma normal_email_idempotent email :
  normal_email (normal_email email) = normal_email email.
Proof.
  unfold normal_email.
  by rewrite strip_lower, strip_idempotent, lower_idempotent.
Qed.

(** ** Stored credentials *)

Section StoredCredentials.
Variable sha256_hexdigest : string → string.

Local Abbreviation hash_password := (Auth.hash_password sha256_hexdigest).
Local Abbreviation verify_password :=
  (Auth.verify_password sha256_hexdigest).
Local Abbreviation register_user := (Auth.register_user sha256_hexdigest).
Local Abbreviation login_user := (Auth.login_user sha256_hexdigest).

(** X1. A password verifies against the hash of any password that is equal
    to it up to surrounding whitespace, in particular against its own
    hash; and two such passwords have the same hash. *)
Theorem verify_hash_up_to_whitespace plain other :
  PyStr.strip plain = PyStr.strip other →
  hash_password plain = hash_password other
  ∧ verify_password plain (hash_password other) = true.
Proof.
  intros Hs. unfold Auth.verify_password, Auth.hash_password.
  rewrite strip_idempotent, Hs. split; [done|]. by apply bool_decide_eq_true.
Qed.

Lemma register_user_users db email password :
  users (register_user db email password).2
  = match Auth.get_current_user db email with
    | Some _ => users db
    | None =>
        <[next_id (users db) :=
            {| user_email := normal_email email;
               user_hashed_password :=
                 hash_password (PyStr.strip password) |}]> (users db)
    end.
Proof.
  unfold Auth.register_user, Auth.get_current_user.
  by destruct (first _ (users db)).
Qed.

(** X2. register_user keeps the users table well formed: if every stored
    email is in normal form (trimmed, lowercase) and no two rows share an
    email, the same holds after the call, whether it succeeds or fails. So
    the unique constraint of the email column is never violated. *)
Theorem register_user_keeps_users_wf db email password :
  users_wf db → users_wf (register_user db email password).2.
Proof.
  intros [Hn Hu]. unfold users_wf. rewrite register_user_users.
  destruct (Auth.get_current_user db email) eqn:E; [done|].
  unfold Auth.get_current_user in E. apply first_None_count in E.
  split.
  - intros id u Hl. destruct (decide (id = next_id (users db))) as [->|Hne].
    + rewrite lookup_insert_eq in Hl. injection Hl as <-.
      apply normal_email_idempotent.
    + rewrite lookup_insert_ne in Hl by done. by apply (Hn id).
  - intros e. rewrite count_insert_fresh by apply next_id_fresh.
    destruct (decide _) as [He|]; [|apply Hu].
    cbn [snd user_email] in He. subst e.
    unfold normal_email. rewrite E. done.
Qed.

Lemma users_wf_empty : users_wf empty_store.
Proof.
  split.
  - intros id u Hl. cbn [users empty_store] in Hl.
    by rewrite lookup_empty in Hl.
  - intros e. vm_compute. lia.
Qed.

(** X3. After register_user has created a user, login_user accepts every
    spelling of the credentials: any email with the same normal form and
    any password equal up to surrounding whitespace return the row that was
    created, whose stored email is the normal form. *)
Theorem login_accepts_every_spelling db email password email' password' :
  Auth.get_current_user db email = None →
  normal_email email' = normal_email email →
  PyStr.strip password' = PyStr.strip password →
  ∃ u,
    (register_user db email password).1 = inr u
    ∧ login_user (register_user db email password).2 email' password'
      = Some u
    ∧ user_email u.2 = normal_email email.
Proof.
  intros E He Hp. unfold Auth.get_current_user in E.
  unfold Auth.register_user. rewrite E. eexists. split; [reflexivity|].
  split; [|reflexivity].
  apply first_None_count in E.
  unfold Auth.login_user. cbn [users set_users fst snd]. unfold add_row.
  fold (normal_email email'). rewrite He. unfold normal_email.
  rewrite (first_insert_only _ (users db) _ _ (next_id_fresh _) E)
    by reflexivity.
  cbn [snd user_hashed_password].
  unfold Auth.verify_password. rewrite Hp.
  by rewrite bool_decide_true.
Qed.

End StoredCredentials.

Lemma users_wf_ann_registered : users_wf ann_registered.
Proof.
  assert (users ann_registered = {[ 1 := ann.2 ]}) as Hu
    by (vm_compute; reflexivity).
  split; rewrite Hu.
  - intros id u Hl. apply lookup_singleton_Some in Hl as [_ <-].
    vm_compute. reflexivity.
  - intros email. unfold count. rewrite map_to_list_singleton, filter_cons.
    destruct (decide _); simpl; lia.
Qed.

Lemma verify_hash_up_to_whitespace_witness :
  Auth.hash_password tag_digest " s3cret " = "sha256:s3cret"
  ∧ Auth.verify_password tag_digest "s3cret  " "sha256:s3cret" = true.
Proof.
  destruct (verify_hash_up_to_whitespace tag_digest "s3cret  " " s3cret ")
    as [_ Hv]; [reflexivity|].
  split; [reflexivity|exact Hv].
Defined.

Lemma register_user_keeps_users_wf_witness : users_wf ann_registered.
Proof.
  exact (register_user_keeps_users_wf tag_digest empty_store
           " Ann@Example.org " " s3cret " users_wf_empty).
Defined.

Lemma login_accepts_every_spelling_witness :
  Auth.login_user tag_digest ann_registered "ANN@example.ORG" "s3cret"
  = Some ann.
Proof.
  destruct (login_accepts_every_spelling tag_digest empty_store
              " Ann@Example.org " " s3cret " "ANN@example.ORG" "s3cret")
    as (u & Hr & Hl & _); [reflexivity..|].
  assert (u = ann) as <-; [|exact Hl].
  assert ((Auth.register_user tag_digest empty_store
             " Ann@Example.org " " s3cret ").1 = inr ann) as H
    by (vm_compute; reflexivity).
  congruence.
Defined.

(** ** The session of a user *)

(** X4. For a user that the login lookup finds, in a well-formed users
    table, the forgot-password page recognises the email exactly when it is
    typed in normal form: it compares the text literally, without the
    trimming and lowercasing that signup and login apply. *)
Theorem forgot_password_is_literal db email user :
  users_wf db →
  Auth.get_current_user db email = Some user →
  forgot_password_submit db email = Reset_link_sent
  ↔ normal_email email = email.
Proof.
  intros [Hn _] Hu. unfold forgot_password_submit. split.
  - destruct (first _ (users db)) as [r|] eqn:E; [intros _|done].
    apply first_Some_lookup in E as [Hl He]. simpl in He.
    rewrite <-He. by apply (Hn r.1).
  - intros He. unfold Auth.get_current_user in Hu.
    fold (normal_email email) in Hu. rewrite He in Hu. by rewrite Hu.
Qed.

Lemma forgot_password_is_literal_witness :
  forgot_password_submit ann_registered " Ann@Example.org " = Email_not_found
  ∧ forgot_password_submit ann_registered "ann@example.org"
    = Reset_link_sent.
Proof.
  pose proof users_wf_ann_registered as Hwf.
  split.
  - destruct (forgot_password_submit ann_registered " Ann@Example.org ")
      eqn:E; [done|].
    apply (forgot_password_is_literal _ _ ann Hwf) in E; [|reflexivity].
    vm_compute in E. discriminate E.
  - apply (forgot_password_is_literal _ _ ann Hwf); reflexivity.
Defined.

Section UserSession.
Variable sha256_hexdigest : string → string.

(** X5. When login_user_route redirects to the home page, on a well-formed
    users table, the session it leaves names one user: the user id slot
    holds the id of a row of the users table whose password verified, the
    email slot holds that row's stored email, looking the user up by the
    session's email (as the pages do) returns that same row, and the
    consultant slots are untouched. When it renders the login page
    instead, the session is unchanged. *)
Theorem login_session_names_user db session email password :
  users_wf db →
  let result := login_user_route sha256_hexdigest db session email password in
  (result.1 = Page_redirect (RedirectResponse "/home" 303) →
   ∃ user,
     users db !! user.1 = Some user.2
     ∧ Auth.verify_password sha256_hexdigest password
         (user_hashed_password user.2) = true
     ∧ sess_user_id result.2 = Some user.1
     ∧ sess_user_email result.2 = Some (user_email user.2)
     ∧ Auth.get_current_user db (user_email user.2) = Some user
     ∧ sess_consultant_id result.2 = sess_consultant_id session
     ∧ sess_consultant result.2 = sess_consultant session)
  ∧ (result.1 ≠ Page_redirect (RedirectResponse "/home" 303) →
     result.2 = session).
Proof.
  intros [Hn _] result. subst result.
  unfold login_user_route, Auth.login_user.
  destruct (first _ (users db)) as [user|] eqn:E; [|by split].
  destruct (Auth.verify_password _ password _) eqn:Ev; cbn [negb];
    [|by split].
  split; [|done]. intros _. exists user. cbn [fst snd sess_user_id
    sess_user_email sess_consultant_id sess_consultant].
  pose proof (first_Some_lookup _ _ _ E) as [Hl He]. simpl in He.
  repeat split; try done.
  unfold Auth.get_current_user. fold (normal_email (user_email user.2)).
  rewrite (Hn user.1 user.2 Hl), He. exact E.
Qed.

End UserSession.

Lemma login_session_names_user_witness :
  (login_user_route tag_digest ann_registered empty_session
     "Ann@example.org" "s3cret").1
  = Page_redirect (RedirectResponse "/home" 303)
  ∧ sess_user_id
      (login_user_route tag_digest ann_registered empty_session
         "Ann@example.org" "s3cret").2
    = Some 1.
Proof.
  pose proof users_wf_ann_registered as Hwf.
  assert ((login_user_route tag_digest ann_registered empty_session
             "Ann@example.org" "s3cret").1
          = Page_redirect (RedirectResponse "/home" 303)) as Hr
    by (vm_compute; reflexivity).
  split; [exact Hr|].
  destruct (login_session_names_user tag_digest ann_registered empty_session
              "Ann@example.org" "s3cret" Hwf) as [Hok _].
  destruct (Hok Hr) as (user & Hl & _ & Hid & _).
  rewrite Hid. f_equal.
  destruct (decide (user.1 = 1)) as [|Hne]; [done|].
  assert (users ann_registered = {[ 1 := ann.2 ]}) as Hu
    by (vm_compute; reflexivity).
  rewrite Hu in Hl. apply lookup_singleton_Some in Hl as [<- _]. done.
Defined.

(** ** Counting under deletion and filtering *)

Section CountFacts.
Context {A : Type}.
Implicit Types (t : gmap Z A) (P Q R : Z * A → Prop).

Lemma count_delete_other P `{!∀ x, Decision (P x)} t k v :
  t !! k = Some v → ¬ P (k, v) → count P (delete k t) = count P t.
Proof.
  intros Hl HP. by rewrite (count_delete P t k v Hl), decide_False.
Qed.

Lemma filter_map_filter_perm P `{!∀ x, Decision (P x)}
    R `{!∀ x, Decision (R x)} t :
  filter P (map_to_list (filter R t))
  ≡ₚ filter (λ x, P x ∧ R x) (map_to_list t).
Proof.
  apply NoDup_Permutation.
  - apply NoDup_filter, NoDup_map_to_list.
  - apply NoDup_filter, NoDup_map_to_list.
  - intros [k v]. rewrite !list_elem_of_filter, !elem_of_map_to_list.
    rewrite map_lookup_filter_Some. simpl. tauto.
Qed.

(** Rows that the filter keeps are all still counted. *)
Lemma count_filter_keep P `{!∀ x, Decision (P x)}
    R `{!∀ x, Decision (R x)} t :
  (∀ x, P x → R x) → count P (filter R t) = count P t.
Proof.
  intros HPR. unfold count. rewrite filter_map_filter_perm.
  f_equal. apply list_filter_iff. intros x. split; [tauto|]. auto.
Qed.

(** Rows that the filter drops are none of them counted. *)
Lemma count_filter_drop P `{!∀ x, Decision (P x)}
    R `{!∀ x, Decision (R x)} t :
  (∀ x, P x → ¬ R x) → count P (filter R t) = 0%nat.
Proof.
  intros HPR. unfold count. rewrite filter_map_filter_perm.
  induction (map_to_list t) as [|x l IH]; [done|].
  rewrite filter_cons, decide_False; [exact IH|].
  intros [HP HR]. by apply (HPR x).
Qed.

(** A toggle of one pair leaves every count that excludes the pair. *)
Lemma toggle_other P `{!∀ x, Decision (P x)} Q `{!∀ x, Decision (Q x)}
    t new :
  (∀ x, P x → ¬ Q x) → (∀ k, P (k, new)) →
  count Q (match first P t with
           | Some e => delete e.1 t
           | None => add_row new t
           end)
  = count Q t.
Proof.
  intros HPQ Hnew. destruct (first P t) as [[k v]|] eqn:E.
  - apply first_Some_lookup in E as [Hl HP]. simpl in *.
    apply (count_delete_other Q t k v Hl). by apply HPQ.
  - rewrite count_add_row, decide_False; [done|]. by apply HPQ.
Qed.

End CountFacts.

(** ** What a toggle leaves alone *)

Lemma like_post_likes db request post_id now :
  likes (like_post db request post_id now).2
  = match first (λ r, like_post_id r.2 = post_id
                      ∧ like_user_id r.2 = session_user_id request)
            (likes db) with
    | Some e => delete e.1 (likes db)
    | None =>
        add_row
          {| like_user_id := session_user_id request;
             like_consultant_id :=
               match posts db !! post_id with
               | Some post => Some (post_consultant_id post)
               | None => None
               end;
             like_post_id := post_id;
             like_timestamp := now |} (likes db)
    end.
Proof. unfold like_post. by destruct (first _ (likes db)). Qed.

Lemma follow_consultant_followers db request consultant_id now :
  followers (follow_consultant db request consultant_id now).2
  = match first (λ r, follower_consultant_id r.2 = consultant_id
                      ∧ follower_user_id r.2 = session_user_id request)
            (followers db) with
    | Some e => delete e.1 (followers db)
    | None =>
        add_row
          {| follower_user_id := session_user_id request;
             follower_consultant_id := consultant_id;
             follower_timestamp := now |} (followers db)
    end.
Proof. unfold follow_consultant. by destruct (first _ (followers db)). Qed.

(** X6. like_post writes the likes table only, and there only the rows of
    its own (post, actor) pair: the like state of every other pair and the
    like count of every other post are as before, as are users,
    consultants, posts, comments, followers and uploaded files. *)
Theorem like_post_touches_one_pair db request post_id now :
  let db' := (like_post db request post_id now).2 in
  (∀ p u, (p, u) ≠ (post_id, session_user_id request) →
          pair_likes db' p u = pair_likes db p u
          ∧ liked db' p u = liked db p u)
  ∧ (∀ p, p ≠ post_id → likes_count db' p = likes_count db p)
  ∧ users db' = users db ∧ consultants db' = consultants db
  ∧ posts db' = posts db ∧ comments db' = comments db
  ∧ followers db' = followers db ∧ uploads db' = uploads db.
Proof.
  intros db'. subst db'. split; [|split].
  - intros p u Hne.
    assert (pair_likes (like_post db request post_id now).2 p u
            = pair_likes db p u) as Hp.
    { unfold pair_likes. rewrite like_post_likes. apply toggle_other.
      - intros x [H1 H2] [H3 H4]. apply Hne. congruence.
      - done. }
    split; [exact Hp|]. unfold liked. by rewrite Hp.
  - intros p Hne. unfold likes_count. rewrite like_post_likes.
    apply toggle_other; [|done]. intros x [H1 _] H3. congruence.
  - unfold like_post. by destruct (first _ (likes db)).
Qed.

(** X7. follow_consultant writes the followers table only, and there only
    the rows of its own (consultant, actor) pair: the follow state of every
    other pair and the follower count of every other consultant are as
    before, as are all the other tables and the uploaded files. *)
Theorem follow_consultant_touches_one_pair db request consultant_id now :
  let db' := (follow_consultant db request consultant_id now).2 in
  (∀ c u, (c, u) ≠ (consultant_id, session_user_id request) →
          pair_follows db' c u = pair_follows db c u
          ∧ following db' c u = following db c u)
  ∧ (∀ c, c ≠ consultant_id → followers_count db' c = followers_count db c)
  ∧ users db' = users db ∧ consultants db' = consultants db
  ∧ posts db' = posts db ∧ likes db' = likes db
  ∧ comments db' = comments db ∧ uploads db' = uploads db.
Proof.
  intros db'. subst db'. split; [|split].
  - intros c u Hne.
    assert (pair_follows (follow_consultant db request consultant_id now).2
              c u = pair_follows db c u) as Hp.
    { unfold pair_follows. rewrite follow_consultant_followers.
      apply toggle_other.
      - intros x [H1 H2] [H3 H4]. apply Hne. congruence.
      - done. }
    split; [exact Hp|]. unfold following. by rewrite Hp.
  - intros c Hne. unfold followers_count.
    rewrite follow_consultant_followers.
    apply toggle_other; [|done]. intros x [H1 _] H3. congruence.
  - unfold follow_consultant. by destruct (first _ (followers db)).
Qed.

Lemma like_post_touches_one_pair_witness :
  liked (like_post one_like as_user_7 1 102).2 1 None = liked one_like 1 None
  ∧ likes_count (like_post one_like as_user_7 1 102).2 2
    = likes_count one_like 2.
Proof.
  destruct (like_post_touches_one_pair one_like as_user_7 1 102)
    as (Hpair & Hcount & _).
  split.
  - apply (Hpair 1 None). discriminate.
  - apply (Hcount 2). lia.
Defined.

Lemma follow_consultant_touches_one_pair_witness :
  following (follow_consultant one_like as_user_7 1 102).2 1 None
  = following one_like 1 None
  ∧ followers_count (follow_consultant one_like as_user_7 1 102).2 2
    = followers_count one_like 2.
Proof.
  destruct (follow_consultant_touches_one_pair one_like as_user_7 1 102)
    as (Hpair & Hcount & _).
  split.
  - apply (Hpair 1 None). discriminate.
  - apply (Hcount 2). lia.
Defined.

(** ** Writing and deleting posts *)

Lemma truthy_id_Some n : n ≠ 0 → truthy_id (Some n) = true.
Proof. intros Hn. simpl. apply negb_true_iff. lia. Qed.

Lemma delete_post_owner db request post_id post :
  session_consultant_id request = Some (post_consultant_id post) →
  post_consultant_id post ≠ 0 →
  posts db !! post_id = Some post →
  delete_post db request post_id
  = (Returns (RedirectResponse "/consultant_post" 303),
     set_posts (delete post_id)
       (set_likes (filter (λ r, like_post_id r.2 ≠ post_id))
          (set_comments (filter (λ r, comment_post_id r.2 ≠ post_id))
             (set_uploads (remove_media (post_media_path post)) db)))).
Proof.
  intros Hs Hnz Hp. unfold delete_post.
  rewrite Hs, Hp, truthy_id_Some by done. cbn [negb].
  by rewrite bool_decide_false by (intros H; by apply H).
Qed.

(** X8. When the owning consultant deletes a post, the post row is gone,
    and with it exactly the likes and the comments of that post: every
    Like and Comment row of another post is kept, the like counts of the
    other posts are as before, the post's media file is no longer among
    the uploads, no feed query returns the post any more, and users,
    consultants and followers are untouched. *)
Theorem delete_post_cascades db request post_id post :
  session_consultant_id request = Some (post_consultant_id post) →
  post_consultant_id post ≠ 0 →
  posts db !! post_id = Some post →
  let result := delete_post db request post_id in
  result.1 = Returns (RedirectResponse "/consultant_post" 303)
  ∧ posts result.2 = delete post_id (posts db)
  ∧ (∀ k l, likes result.2 !! k = Some l
            ↔ likes db !! k = Some l ∧ like_post_id l ≠ post_id)
  ∧ (∀ k c, comments result.2 !! k = Some c
            ↔ comments db !! k = Some c ∧ comment_post_id c ≠ post_id)
  ∧ likes_count result.2 post_id = 0%nat
  ∧ (∀ p, p ≠ post_id → likes_count result.2 p = likes_count db p)
  ∧ (∀ f, post_media_path post = Some f → f ≠ EmptyString →
          f ∉ uploads result.2)
  ∧ (∀ q specialization r,
       r ∈ feed_posts result.2 q specialization → r.1 ≠ post_id)
  ∧ users result.2 = users db
  ∧ consultants result.2 = consultants db
  ∧ followers result.2 = followers db.
Proof.
  intros Hs Hnz Hp result. subst result.
  rewrite (delete_post_owner db request post_id post Hs Hnz Hp).
  cbn [fst snd posts likes comments users consultants followers uploads
       set_posts set_likes set_comments set_uploads].
  split; [done|]. split; [done|]. split.
  { intros k l. rewrite map_lookup_filter_Some. simpl. tauto. }
  split.
  { intros k c. rewrite map_lookup_filter_Some. simpl. tauto. }
  split.
  { unfold likes_count. cbn [likes]. apply count_filter_drop.
    intros x H1 H2. by apply H2. }
  split.
  { intros p Hne. unfold likes_count. cbn [likes].
    apply count_filter_keep. intros x H1 H2. apply Hne. congruence. }
  split.
  { intros f Hf Hne. rewrite Hf. unfold remove_media.
    destruct f; [done|]. cbn [PyStr.truthy].
    apply not_elem_of_difference. right. by apply elem_of_singleton. }
  split; [|done].
  intros q specialization r Hr Heq.
  apply elem_of_feed_posts in Hr as [Hl _].
  cbn [posts set_posts set_likes set_comments set_uploads] in Hl.
  by rewrite Heq, lookup_delete_eq in Hl.
Qed.

Lemma delete_post_cascades_witness :
  (delete_post one_like as_consultant_1 1).1
  = Returns (RedirectResponse "/consultant_post" 303)
  ∧ likes_count (delete_post one_like as_consultant_1 1).2 1 = 0%nat
  ∧ likes_count one_like 1 = 1%nat.
Proof.
  destruct (delete_post_cascades one_like as_consultant_1 1
              nutritionist_post) as (Hr & _ & _ & _ & Hc & _).
  - reflexivity.
  - simpl. lia.
  - vm_compute. reflexivity.
  - split; [exact Hr|]. split; [exact Hc|]. vm_compute. reflexivity.
Defined.

(** X9. edit_post and delete_post act only for the owner: whenever one of
    them returns its success redirect or hands back a store that differs
    from the one it was given, the post exists and the session's
    consultant id is a non-zero id equal to the post's owner. Without a
    consultant session, on a missing post and for another consultant
    nothing is written. *)
Theorem only_owner_writes_post db request post_id new_bio new_media now :
  let edited := edit_post db request post_id new_bio new_media now in
  let deleted := delete_post db request post_id in
  (edited.1 = Returns (RedirectResponse "/consultant_post" 303)
   ∨ edited.2 ≠ db
   ∨ deleted.1 = Returns (RedirectResponse "/consultant_post" 303)
   ∨ deleted.2 ≠ db) →
  ∃ post,
    posts db !! post_id = Some post
    ∧ session_consultant_id request = Some (post_consultant_id post)
    ∧ post_consultant_id post ≠ 0.
Proof.
  intros edited deleted. subst edited deleted. unfold edit_post, delete_post.
  destruct (session_consultant_id request) as [cid|] eqn:Es; cbn [truthy_id].
  2: { cbn [negb fst snd]. intros [H|[H|[H|H]]]; done. }
  destruct (cid =? 0) eqn:Ez; cbn [negb].
  { cbn [fst snd]. intros [H|[H|[H|H]]]; done. }
  destruct (posts db !! post_id) as [post|].
  2: { cbn [fst snd]. intros [H|[H|[H|H]]]; done. }
  destruct (bool_decide _) eqn:Eo.
  { cbn [fst snd]. intros [H|[H|[H|H]]]; done. }
  intros _. exists post. apply bool_decide_eq_false in Eo.
  apply dec_stable in Eo. injection Eo as Eo.
  split; [done|]. split; [by rewrite Eo|]. rewrite Eo. lia.
Qed.

Lemma only_owner_writes_post_witness :
  ∃ post,
    posts one_like !! 1 = Some post
    ∧ session_consultant_id as_consultant_1
      = Some (post_consultant_id post).
Proof.
  destruct (only_owner_writes_post one_like as_consultant_1 1
              "Eat more fibre" None 200) as (post & Hp & Hs & _).
  - left. vm_compute. reflexivity.
  - by exists post.
Defined.

(** X10. With a consultant session, consultant_post_submit adds exactly one
    post, under an id not in use, owned by the session's consultant and
    carrying the content, the media name and the time given; nothing else
    in the store changes but the uploads. If that consultant exists the
    new post is in the unfiltered feed, and the same session can delete it
    again, which gives back the posts table as it was. *)
Theorem post_submit_then_delete db request content media now consultant_id :
  session_consultant_id request = Some consultant_id →
  consultant_id ≠ 0 →
  let new_id := next_id (posts db) in
  let submitted := consultant_post_submit db request content media now in
  submitted.1 = Returns (RedirectResponse "/consultant_post" 303)
  ∧ posts db !! new_id = None
  ∧ (∃ post,
       posts submitted.2 = <[new_id := post]> (posts db)
       ∧ post_consultant_id post = consultant_id
       ∧ post_content post = content
       ∧ post_media_path post = media
       ∧ post_timestamp post = now
       ∧ (is_Some (consultants db !! consultant_id) →
          (new_id, post) ∈ feed_posts submitted.2 None None))
  ∧ posts (delete_post submitted.2 request new_id).2 = posts db
  ∧ users submitted.2 = users db
  ∧ consultants submitted.2 = consultants db
  ∧ likes submitted.2 = likes db
  ∧ comments submitted.2 = comments db
  ∧ followers submitted.2 = followers db.
Proof.
  intros Hs Hnz new_id submitted. subst new_id submitted.
  unfold consultant_post_submit.
  rewrite Hs, truthy_id_Some by done.
  cbn [negb fst snd default from_option id users consultants posts likes
       comments followers set_posts set_uploads]. unfold add_row.
  split; [done|]. split; [apply next_id_fresh|]. split.
  { eexists. split; [reflexivity|]. do 4 (split; [reflexivity|]).
    intros [c Hc]. apply elem_of_feed_posts.
    cbn [fst snd posts set_posts set_uploads]. split.
    - apply lookup_insert_eq.
    - unfold feed_row.
      cbn [snd post_consultant_id consultants set_posts set_uploads].
      by rewrite Hc. }
  split; [|done].
  rewrite (delete_post_owner _ request _
             {| post_consultant_id := consultant_id;
                post_content := content;
                post_media_path := media;
                post_media_type :=
                  if truthy_str media then media_type_of <$> media else None;
                post_timestamp := now |} Hs Hnz).
  - cbn [snd posts set_posts set_likes set_comments set_uploads].
    rewrite delete_insert_eq. apply delete_id, next_id_fresh.
  - cbn [posts]. apply lookup_insert_eq.
Qed.

Lemma post_submit_then_delete_witness :
  (consultant_post_submit one_like as_consultant_1 "Sleep well"
     (Some "clip.mp4") 300).1
  = Returns (RedirectResponse "/consultant_post" 303)
  ∧ posts
      (delete_post
         (consultant_post_submit one_like as_consultant_1 "Sleep well"
            (Some "clip.mp4") 300).2 as_consultant_1 2).2
    = posts one_like.
Proof.
  destruct (post_submit_then_delete one_like as_consultant_1 "Sleep well"
              (Some "clip.mp4") 300 1) as (Hr & _ & _ & Hd & _).
  - reflexivity.
  - lia.
  - split; [exact Hr|]. exact Hd.
Defined.

(** X11. A successful edit_post rewrites one post row and never its owner.
    Without a new upload the media path, the media type and the uploaded
    files stay as they were. With one, the row points to the new file,
    typed by its extension, the new file is among the uploads, the old
    file of the post is not (unless it has the same name), and no other
    file is removed. Likes, comments and every other post are untouched. *)
Theorem edit_post_frame db request post_id new_bio new_media now post :
  session_consultant_id request = Some (post_consultant_id post) →
  post_consultant_id post ≠ 0 →
  posts db !! post_id = Some post →
  let db' := (edit_post db request post_id new_bio new_media now).2 in
  (∃ post',
     posts db' = <[post_id := post']> (posts db)
     ∧ post_consultant_id post' = post_consultant_id post
     ∧ (new_media = None →
        post_media_path post' = post_media_path post
        ∧ post_media_type post' = post_media_type post
        ∧ uploads db' = uploads db)
     ∧ (∀ fname, new_media = Some fname →
          post_media_path post' = Some fname
          ∧ post_media_type post' = Some (media_type_of fname)
          ∧ fname ∈ uploads db'
          ∧ (∀ old, post_media_path post = Some old → old ≠ EmptyString →
                    old ≠ fname → old ∉ uploads db')
          ∧ (∀ f, f ∈ uploads db → Some f ≠ post_media_path post →
                  f ∈ uploads db')))
  ∧ likes db' = likes db
  ∧ comments db' = comments db
  ∧ consultants db' = consultants db.
Proof.
  intros Hs Hnz Hp db'. subst db'.
  destruct (edit_post_owner db request post_id new_bio new_media now post
              Hs Hnz Hp) as (mp & mt & files & -> & Hm).
  cbn [snd posts likes comments consultants uploads set_posts set_uploads].
  split; [|done]. eexists. split; [reflexivity|]. split; [reflexivity|].
  cbn [post_media_path post_media_type]. split.
  - intros ->. by injection Hm as -> -> ->.
  - intros fname ->. injection Hm as -> -> ->.
    split; [done|]. split; [done|]. split; [set_solver|]. split.
    + intros old Ho Hne Hnf. rewrite Ho. unfold remove_media.
      destruct old; [done|]. cbn [PyStr.truthy].
      rewrite elem_of_union, elem_of_difference, !elem_of_singleton.
      intros [[_ H]|H]; [by apply H|done].
    + intros f Hf Hne. apply elem_of_union. left. unfold remove_media.
      destruct (post_media_path post) as [old|]; [|done].
      destruct (PyStr.truthy old); [|done].
      apply elem_of_difference. split; [done|].
      rewrite elem_of_singleton. congruence.
Qed.

Lemma edit_post_frame_witness :
  post_media_type
  <$> posts (edit_post one_like as_consultant_1 1 "Eat more fibre"
               (Some "20240101_ab12cd.MOV") 200).2 !! 1
  = Some (Some "video").
Proof.
  destruct (edit_post_frame one_like as_consultant_1 1 "Eat more fibre"
              (Some "20240101_ab12cd.MOV") 200 nutritionist_post)
    as ((post' & Hposts & _ & _ & Hnew) & _).
  - reflexivity.
  - simpl. lia.
  - vm_compute. reflexivity.
  - destruct (Hnew _ eq_refl) as (_ & Ht & _).
    rewrite Hposts, lookup_insert_eq. simpl. rewrite Ht.
    vm_compute. reflexivity.
Defined.

(** ** The feed with a search text *)




(** X13. Every row that consultants_page hands to the template agrees with
    the store: its post and its consultant are rows of the store, the
    consultant being the post's owner; its like count is the number of
    likes of the post and its follower count the number of followers of
    the consultant; its comments are exactly the comments of the post,
    each once, oldest first. *)
Theorem feed_items_agree db q specialization items item :
  consultants_page db q specialization = Some items →
  item ∈ items →
  posts db !! (item_post item).1 = Some (item_post item).2
  ∧ (item_consultant item).1 = post_consultant_id (item_post item).2
  ∧ consultants db !! (item_consultant item).1
    = Some (item_consultant item).2
  ∧ item_likes_count item = likes_count db (item_post item).1
  ∧ item_followers_count item
    = followers_count db (item_consultant item).1
  ∧ (∀ c, c ∈ item_comments item
          ↔ comments db !! c.1 = Some c.2
            ∧ comment_post_id c.2 = (item_post item).1)
  ∧ StronglySorted oldest_first (item_comments item)
  ∧ NoDup (item_comments item).
Proof.
  unfold consultants_page. intros Hm Hin.
  apply mapM_Some in Hm.
  apply list_elem_of_lookup in Hin as [i Hi].
  destruct (Forall2_lookup_r _ _ _ _ _ Hm Hi) as (p & Hp & Hf).
  assert (p ∈ feed_posts db q specialization) as Hpin
    by (apply list_elem_of_lookup; by exists i).
  apply elem_of_feed_posts in Hpin as [Hl _].
  unfold feed_item in Hf.
  destruct (consultants db !! post_consultant_id p.2) as [c|] eqn:Ec;
    [|done].
  injection Hf as <-.
  cbn [item_post item_consultant item_likes_count item_followers_count
       item_comments fst snd].
  split; [done|]. split; [done|]. split; [done|]. split; [done|].
  split; [done|]. split; [|split].
  - intros [k v]. rewrite merge_sort_Permutation, list_elem_of_filter.
    rewrite elem_of_map_to_list. simpl. tauto.
  - apply StronglySorted_merge_sort.
    + intros x y z. unfold oldest_first. lia.
    + intros x y. unfold oldest_first. lia.
  - rewrite merge_sort_Permutation. apply NoDup_filter, NoDup_map_to_list.
Qed.

Lemma feed_items_agree_witness :
  ∃ item,
    consultants_page one_like None None = Some [item]
    ∧ item_likes_count item = 1%nat.
Proof.
  destruct (consultants_page_posts one_like None None)
    as (items & Hpage & Hposts).
  assert (feed_posts one_like None None = [(1, nutritionist_post)]) as Hf
    by (vm_compute; reflexivity).
  rewrite Hf in Hposts.
  destruct items as [|item [|item' items]]; try done.
  exists item. split; [exact Hpage|].
  destruct (feed_items_agree one_like None None [item] item Hpage)
    as (_ & _ & _ & Hc & _); [apply list_elem_of_here|].
  rewrite Hc. injection Hposts as ->. vm_compute. reflexivity.
Defined.

(** ** Consultant registration *)

Lemma count_insert_same {A} (P : Z * A → Prop) `{!∀ x, Decision (P x)}
    (t : gmap Z A) k v v' :
  t !! k = Some v → P (k, v) → P (k, v') →
  count P (<[k:=v']> t) = count P t.
Proof.
  intros Hl HP HP'. rewrite <-insert_delete_eq.
  rewrite count_insert_fresh by apply lookup_delete_eq.
  rewrite (count_delete P t k v Hl), !decide_True by done. done.
Qed.

(** X14. consultant_register_submit creates or updates by email: it
    writes exactly one consultant row, carrying the name, specialization
    and bio given and the email given, and stores that row's id and email
    in the session. When no consultant has the email the row is new;
    otherwise an existing row with that email is updated in place, so the
    number of consultants with the email never grows beyond what it was
    (or one, for a new email). Posts, likes, comments, followers, users
    and the user slots of the session are untouched. *)
Theorem consultant_register_upserts db session name email specialization
    bio media :
  let result :=
    consultant_register_submit db session name email specialization bio
      media in
  let known :=
    count (λ r : Z * Consultant, consultant_email r.2 = email)
      (consultants db) in
  result.1.1 = RedirectResponse "/consultant_post" 303
  ∧ (∃ id c,
       consultants result.1.2 = <[id := c]> (consultants db)
       ∧ consultant_name c = name
       ∧ consultant_email c = email
       ∧ consultant_specialization c = specialization
       ∧ consultant_bio c = bio
       ∧ sess_consultant_id result.2 = Some id
       ∧ sess_consultant_email result.2 = Some email
       ∧ (known = 0%nat → consultants db !! id = None)
       ∧ (known ≠ 0%nat →
          ∃ old, consultants db !! id = Some old
                 ∧ consultant_email old = email))
  ∧ count (λ r : Z * Consultant, consultant_email r.2 = email)
      (consultants result.1.2)
    = Nat.max 1 known
  ∧ posts result.1.2 = posts db
  ∧ likes result.1.2 = likes db
  ∧ comments result.1.2 = comments db
  ∧ followers result.1.2 = followers db
  ∧ users result.1.2 = users db
  ∧ sess_user_id result.2 = sess_user_id session
  ∧ sess_user_email result.2 = sess_user_email session.
Proof.
  intros result known. subst result known.
  unfold consultant_register_submit.
  cbn [consultants set_uploads].
  destruct (first _ (consultants db)) as [[k old]|] eqn:E.
  - pose proof (first_Some_count _ _ _ E) as Hc.
    apply first_Some_lookup in E as [Hl He]. simpl in Hl, He.
    destruct (truthy_str media);
      cbn [fst snd consultants posts likes comments followers users
           set_consultants set_uploads sess_consultant_id
           sess_consultant_email sess_user_id sess_user_email
           consultant_name consultant_email consultant_specialization
           consultant_bio].
    all: split; [done|]; split;
      [eexists k, _; split; [reflexivity|];
       cbn [consultant_name consultant_email consultant_specialization
            consultant_bio];
       rewrite He; repeat split; try done; intros _; by exists old|].
    all: split; [|done].
    all: rewrite (count_insert_same _ _ k old _ Hl) by done; lia.
  - apply first_None_count in E.
    cbn [fst snd consultants posts likes comments followers users
         set_consultants set_uploads sess_consultant_id
         sess_consultant_email sess_user_id sess_user_email
         consultant_name consultant_email consultant_specialization
         consultant_bio].
    split; [done|]. split.
    + eexists _, _. split; [reflexivity|].
      cbn [consultant_name consultant_email consultant_specialization
           consultant_bio].
      repeat split; try done. intros _. apply next_id_fresh.
    + split; [|done]. rewrite count_add_row, decide_True by done.
      rewrite E. done.
Qed.

Lemma consultant_register_upserts_witness :
  size (consultants
          (consultant_register_submit one_like empty_session "Dr C"
             "c@example.org" "Dietetics" "bio" None).1.2)
  = size (consultants one_like).
Proof.
  destruct (consultant_register_upserts one_like empty_session "Dr C"
              "c@example.org" "Dietetics" "bio" None)
    as (_ & (id & c & Hc & _ & _ & _ & _ & _ & _ & _ & Hold) & _).
  rewrite Hc. destruct Hold as (old & Hl & _).
  - vm_compute. lia.
  - apply map_size_insert_Some. by exists old.
Defined.

(** ** The posts of one consultant *)

Lemma elem_of_posts_of db consultant_id r :
  r ∈ posts_of db consultant_id
  ↔ posts db !! r.1 = Some r.2 ∧ post_consultant_id r.2 = consultant_id.
Proof.
  unfold posts_of. rewrite merge_sort_Permutation, list_elem_of_filter.
  destruct r as [k p]. rewrite elem_of_map_to_list. simpl. tauto.
Qed.

Lemma posts_of_sorted db consultant_id :
  StronglySorted newest_first (posts_of db consultant_id).
Proof. apply StronglySorted_merge_sort; apply _. Qed.

Lemma posts_of_NoDup db consultant_id : NoDup (posts_of db consultant_id).
Proof.
  unfold posts_of. rewrite merge_sort_Permutation.
  apply NoDup_filter, NoDup_map_to_list.
Qed.

(** X15. With a consultant id in the session, consultant_post_page renders
    the dashboard and leaves the session as it is: the dashboard lists
    exactly the posts owned by that consultant, each once, newest first,
    each with its number of likes and of comments, next to the
    consultant's row when there is one. *)
Theorem dashboard_lists_own_posts db session consultant_id :
  sess_consultant_id session = Some consultant_id →
  consultant_id ≠ 0 →
  ∃ dash,
    consultant_post_page db session = (inr dash, session)
    ∧ dash_consultant dash
      = pair consultant_id <$> consultants db !! consultant_id
    ∧ (∀ r, r ∈ dash_post <$> dash_posts dash
            ↔ posts db !! r.1 = Some r.2
              ∧ post_consultant_id r.2 = consultant_id)
    ∧ StronglySorted newest_first (dash_post <$> dash_posts dash)
    ∧ NoDup (dash_post <$> dash_posts dash)
    ∧ (∀ d, d ∈ dash_posts dash →
            dash_likes_count d = likes_count db (dash_post d).1
            ∧ dash_comments_count d
              = count (λ r, comment_post_id r.2 = (dash_post d).1)
                  (comments db)).
Proof.
  intros Hs Hnz. unfold consultant_post_page.
  rewrite Hs, truthy_id_Some by done. cbn [negb].
  rewrite truthy_id_Some by done. cbn [negb default from_option id].
  eexists. split; [reflexivity|].
  cbn [dash_consultant dash_posts]. split; [done|].
  rewrite <-list_fmap_compose.
  assert (dash_post ∘ (λ p, {| dash_post := p;
            dash_likes_count := count (λ r, like_post_id r.2 = p.1) (likes db);
            dash_comments_count :=
              count (λ r, comment_post_id r.2 = p.1) (comments db) |})
          = id) as -> by done.
  rewrite list_fmap_id.
  split; [intros r; apply elem_of_posts_of|].
  split; [apply posts_of_sorted|]. split; [apply posts_of_NoDup|].
  intros d Hd. apply list_elem_of_fmap in Hd as (p & -> & _). done.
Qed.

Lemma dashboard_lists_own_posts_witness :
  ∃ dash,
    consultant_post_page one_like session_of_consultant_1
    = (inr dash, session_of_consultant_1)
    ∧ (1, nutritionist_post) ∈ dash_post <$> dash_posts dash.
Proof.
  destruct (dashboard_lists_own_posts one_like session_of_consultant_1 1)
    as (dash & Hpage & _ & Hin & _); [reflexivity|lia|].
  exists dash. split; [exact Hpage|]. apply Hin.
  split; [vm_compute; reflexivity|reflexivity].
Defined.

(** X16. The legacy fallback of consultant_post_page: a session without a
    consultant id but with the legacy consultant entry, whose email
    belongs to a consultant with a non-zero id, gets that id written to
    its consultant id slot and is shown the same dashboard as a session
    that held the id from the start; a session with neither an id nor a
    legacy entry that resolves is redirected to the registration page and
    is not changed. *)
Theorem dashboard_legacy_session db session :
  truthy_id (sess_consultant_id session) = false →
  (∀ legacy consultant,
     sess_consultant session = Some legacy →
     first (λ r, consultant_email r.2 = legacy_email legacy) (consultants db)
     = Some consultant →
     consultant.1 ≠ 0 →
     let resolved :=
       {| sess_user_id := sess_user_id session;
          sess_user_email := sess_user_email session;
          sess_user := sess_user session;
          sess_consultant_id := Some consultant.1;
          sess_consultant_email := sess_consultant_email session;
          sess_consultant := sess_consultant session |} in
     consultant_post_page db session = consultant_post_page db resolved
     ∧ (consultant_post_page db session).2 = resolved
     ∧ consultant_email consultant.2 = legacy_email legacy)
  ∧ ((sess_consultant session = None
      ∨ ∃ legacy, sess_consultant session = Some legacy
                  ∧ first (λ r, consultant_email r.2 = legacy_email legacy)
                      (consultants db) = None) →
     consultant_post_page db session
     = (inl (RedirectResponse "/consultant-register" 307), session)).
Proof.
  intros Hf. split.
  - intros legacy consultant Hl Hc Hnz resolved. subst resolved.
    pose proof (first_Some_lookup _ _ _ Hc) as [_ He]. simpl in He.
    unfold consultant_post_page at 1 3.
    rewrite Hf, Hl, Hc. cbn [negb].
    rewrite truthy_id_Some by done. cbn [negb default from_option id].
    unfold consultant_post_page.
    cbn [sess_consultant_id]. rewrite truthy_id_Some by done. cbn [negb].
    rewrite truthy_id_Some by done. cbn [negb default from_option id snd].
    done.
  - intros Hnone. unfold consultant_post_page. rewrite Hf. cbn [negb].
    destruct Hnone as [->|(legacy & -> & ->)]; by rewrite Hf.
Qed.

Lemma dashboard_legacy_session_witness :
  sess_consultant_id (consultant_post_page one_like legacy_session).2
  = Some 1
  ∧ consultant_post_page one_like empty_session
    = (inl (RedirectResponse "/consultant-register" 307), empty_session).
Proof.
  destruct (dashboard_legacy_session one_like legacy_session eq_refl)
    as [Hres _].
  destruct (dashboard_legacy_session one_like empty_session eq_refl)
    as [_ Hnone].
  split.
  - destruct (Hres _ (1, nutritionist) eq_refl) as (_ & -> & _).
    + vm_compute. reflexivity.
    + simpl. lia.
    + reflexivity.
  - apply Hnone. by left.
Defined.

(** X17. For an id that the store can hold (a signed 64-bit integer),
    consultant_profile raises the 404 error exactly when no consultant has
    the id, and otherwise shows that consultant with exactly the posts it
    owns, each once, newest first, each with its number of likes and with
    exactly its comments, oldest first. For an id that the store cannot
    hold, the lookup raises OverflowError. *)
Theorem consultant_profile_lists db consultant_id :
  (storable consultant_id = false →
   consultant_profile db consultant_id = inl OverflowError)
  ∧ (storable consultant_id = true →
     (consultants db !! consultant_id = None
      ↔ consultant_profile db consultant_id
        = inl (Ran (HTTPException 404 "Consultant not found")))
     ∧ (∀ c, consultants db !! consultant_id = Some c →
          ∃ prof,
            consultant_profile db consultant_id = inr prof
            ∧ prof_consultant prof = (consultant_id, c)
            ∧ (∀ r, r ∈ prof_post <$> prof_posts prof
                    ↔ posts db !! r.1 = Some r.2
                      ∧ post_consultant_id r.2 = consultant_id)
            ∧ StronglySorted newest_first (prof_post <$> prof_posts prof)
            ∧ NoDup (prof_post <$> prof_posts prof)
            ∧ (∀ d, d ∈ prof_posts prof →
                 prof_likes_count d = likes_count db (prof_post d).1
                 ∧ (∀ k, k ∈ prof_comments d
                         ↔ comments db !! k.1 = Some k.2
                           ∧ comment_post_id k.2 = (prof_post d).1)
                 ∧ StronglySorted oldest_first (prof_comments d)))).
Proof.
  unfold consultant_profile. split; [by intros ->|].
  intros ->. cbn [negb]. split.
  - by destruct (consultants db !! consultant_id).
  - intros c ->. eexists. split; [reflexivity|].
    cbn [prof_consultant prof_posts]. split; [done|].
    rewrite <-list_fmap_compose.
    assert (∀ l : list (Z * ConsultantPost),
      (prof_post ∘ (λ p, {| prof_post := p;
          prof_likes_count := count (λ r, like_post_id r.2 = p.1) (likes db);
          prof_comments :=
            merge_sort oldest_first
              (filter (λ r, comment_post_id r.2 = p.1)
                 (map_to_list (comments db))) |})) <$> l = l) as ->.
    { intros l. rewrite <-(list_fmap_id l) at 2. by apply list_fmap_ext. }
    split; [intros r; apply elem_of_posts_of|].
    split; [apply posts_of_sorted|]. split; [apply posts_of_NoDup|].
    intros d Hd. apply list_elem_of_fmap in Hd as (p & -> & _).
    cbn [prof_post prof_likes_count prof_comments]. split; [done|]. split.
    + intros [k v]. rewrite merge_sort_Permutation, list_elem_of_filter.
      rewrite elem_of_map_to_list. simpl. tauto.
    + apply StronglySorted_merge_sort.
      * intros x y z. unfold oldest_first. lia.
      * intros x y. unfold oldest_first. lia.
Qed.

Lemma consultant_profile_lists_witness :
  consultant_profile one_like 9
  = inl (Ran (HTTPException 404 "Consultant not found"))
  ∧ consultant_profile one_like (2 ^ 63) = inl OverflowError
  ∧ ∃ prof, consultant_profile one_like 1 = inr prof
            ∧ prof_consultant prof = (1, nutritionist).
Proof.
  destruct (consultant_profile_lists one_like 9) as [_ H9].
  destruct (consultant_profile_lists one_like (2 ^ 63)) as [Hover _].
  destruct (consultant_profile_lists one_like 1) as [_ H1].
  split; [|split].
  - apply (H9 eq_refl). vm_compute. reflexivity.
  - apply Hover. reflexivity.
  - destruct (H1 eq_refl) as [_ Hprof].
    destruct (Hprof nutritionist) as (prof & Hp & Hc & _).
    + vm_compute. reflexivity.
    + by exists prof.
Defined.

(** ** File names *)

Lemma safe_char_facts c :
  let c' := if safe_char c then c else "_"%char in
  safe_char c' = true
  ∧ Ascii.eqb "/" c' = false
  ∧ Ascii.eqb "." c' = Ascii.eqb "." c.
Proof. destruct c as [[] [] [] [] [] [] [] []]; vm_compute; done. Qed.

Lemma sanitize_app a b :
  _sanitize_filename (a +:+ b)
  = _sanitize_filename a +:+ _sanitize_filename b.
Proof. induction a as [|c a IH]; [done|]. simpl. by rewrite IH. Qed.

Lemma sanitize_occurs_dot s :
  occurs "." (_sanitize_filename s) = occurs "." s.
Proof.
  induction s as [|c s IH]; [done|]. cbn [_sanitize_filename occurs].
  destruct (safe_char_facts c) as (_ & _ & ->). by rewrite IH.
Qed.

Lemma sanitize_no_slash s : occurs "/" (_sanitize_filename s) = false.
Proof.
  induction s as [|c s IH]; [done|]. cbn [_sanitize_filename occurs].
  destruct (safe_char_facts c) as (_ & -> & _). by rewrite IH.
Qed.

(** X18. _sanitize_filename keeps the length of the name, yields only
    characters of the safe class (word characters, hyphen, underscore, dot
    and space), so never a path separator, leaves a name of safe characters
    as it is, and is idempotent. *)
Theorem sanitize_filename_safe name :
  String.length (_sanitize_filename name) = String.length name
  ∧ (∀ c, occurs c (_sanitize_filename name) = true → safe_char c = true)
  ∧ occurs "/" (_sanitize_filename name) = false
  ∧ ((∀ c, occurs c name = true → safe_char c = true) →
     _sanitize_filename name = name)
  ∧ _sanitize_filename (_sanitize_filename name) = _sanitize_filename name.
Proof.
  split; [|split; [|split; [apply sanitize_no_slash|split]]].
  - induction name as [|c name IH]; [done|]. simpl. by rewrite IH.
  - induction name as [|d name IH]; [done|]. intros c.
    cbn [_sanitize_filename occurs]. rewrite orb_true_iff. intros [Hc|Hc]; [|by apply IH].
    apply Ascii.eqb_eq in Hc as ->. apply safe_char_facts.
  - induction name as [|d name IH]; [done|]. intros Hsafe.
    cbn [_sanitize_filename].
    rewrite (Hsafe d) by (cbn [occurs]; by rewrite Ascii.eqb_refl).
    rewrite IH; [done|]. intros c Hc. apply Hsafe. cbn [occurs].
    rewrite Hc. apply orb_true_r.
  - induction name as [|d name IH]; [done|]. cbn [_sanitize_filename].
    rewrite (proj1 (safe_char_facts d)), IH. done.
Qed.

Lemma sanitize_filename_safe_witness :
  _sanitize_filename "../a b/c?.png" = ".._a b_c_.png"
  ∧ _sanitize_filename "clip-1_final.mp4" = "clip-1_final.mp4".
Proof.
  split; [reflexivity|].
  destruct (sanitize_filename_safe "clip-1_final.mp4")
    as (_ & _ & _ & Hkeep & _).
  apply Hkeep. intros c Hc. cbn [occurs] in Hc.
  repeat (apply orb_true_iff in Hc as [Hc|Hc];
          [apply Ascii.eqb_eq in Hc as ->; reflexivity|]).
  discriminate Hc.
Defined.

(** ** Extensions *)

Lemma occurs_app c a b : occurs c (a +:+ b) = occurs c a || occurs c b.
Proof.
  induction a as [|d a IH]; [done|].
  change (String d a +:+ b) with (String d (a +:+ b)). cbn [occurs].
  by rewrite IH, orb_assoc.
Qed.

Lemma rfind_from_None k c s :
  PyStr.rfind_from k c s = None ↔ occurs c s = false.
Proof.
  revert k. induction s as [|d s IH]; intros k; [done|].
  cbn [PyStr.rfind_from occurs]. specialize (IH (S k)).
  destruct (PyStr.rfind_from (S k) c s).
  - split; [done|]. intros H. apply orb_false_iff in H as [_ H].
    apply IH in H. done.
  - destruct (Ascii.eqb c d); [done|]. simpl. by apply IH.
Qed.

(** The index found is the one of the last occurrence. *)
Lemma rfind_from_last k c s j :
  PyStr.rfind_from k c s = Some j →
  ∃ n, j = (k + n)%nat
       ∧ PyStr.drop n s = String c (PyStr.drop (S n) s)
       ∧ occurs c (PyStr.drop (S n) s) = false.
Proof.
  revert k. induction s as [|d s IH]; intros k; [done|].
  cbn [PyStr.rfind_from].
  destruct (PyStr.rfind_from (S k) c s) as [j'|] eqn:E.
  - intros [= <-]. destruct (IH _ E) as (n & -> & Hd & Ho).
    exists (S n). split; [lia|]. by cbn [PyStr.drop].
  - destruct (Ascii.eqb c d) eqn:Ec; [|done]. intros [= <-].
    apply Ascii.eqb_eq in Ec as <-. exists 0%nat.
    split; [lia|]. cbn [PyStr.drop]. split; [by destruct s|].
    apply rfind_from_None in E. by destruct s.
Qed.

Lemma rfind_from_app k c u rest :
  occurs c rest = false →
  PyStr.rfind_from k c (u +:+ String c rest)
  = Some (k + String.length u)%nat.
Proof.
  intros Hr. revert k. induction u as [|d u IH]; intros k.
  - change (EmptyString +:+ String c rest) with (String c rest).
    cbn [PyStr.rfind_from String.length].
    apply (rfind_from_None (S k)) in Hr. rewrite Hr, Ascii.eqb_refl.
    f_equal. lia.
  - change (String d u +:+ String c rest)
      with (String d (u +:+ String c rest)).
    cbn [PyStr.rfind_from String.length]. rewrite IH. f_equal. lia.
Qed.

Lemma drop_app_length u v : PyStr.drop (String.length u) (u +:+ v) = v.
Proof. induction u as [|d u IH]; [by destruct v|]. exact IH. Qed.

Lemma take_app_length u v : PyStr.take (String.length u) (u +:+ v) = u.
Proof.
  induction u as [|d u IH]; [by destruct v|].
  change (String d u +:+ v) with (String d (u +:+ v)).
  cbn [String.length PyStr.take]. by rewrite IH.
Qed.

Lemma occurs_drop_S c n s :
  occurs c (PyStr.drop (S n) s) = true → occurs c (PyStr.drop n s) = true.
Proof.
  revert s. induction n as [|n IH]; intros [|d s]; try done.
  - cbn [PyStr.drop occurs]. intros ->. apply orb_true_r.
  - cbn [PyStr.drop]. apply IH.
Qed.

Lemma occurs_drop_le c m n s :
  (m ≤ n)%nat →
  occurs c (PyStr.drop n s) = true → occurs c (PyStr.drop m s) = true.
Proof.
  induction 1 as [|n Hle IH]; [done|].
  intros H. by apply IH, occurs_drop_S.
Qed.

(** What [splitext] returns as extension: nothing, or a dot followed by
    characters that are neither dots nor separators. *)
Lemma splitext_ext_shape p :
  PyStr.splitext_ext p = EmptyString
  ∨ ∃ rest, PyStr.splitext_ext p = String "." rest
            ∧ occurs "." rest = false ∧ occurs "/" rest = false.
Proof.
  unfold PyStr.splitext_ext, PyStr.rfind.
  destruct (PyStr.rfind_from 0 "." p) as [d|] eqn:Ed; [|by left].
  destruct (rfind_from_last _ _ _ _ Ed) as (n & -> & Hd & Hdot).
  cbn [Nat.add] in *.
  match goal with |- context [(?i <=? n)%nat] =>
    destruct (i <=? n)%nat eqn:Ele; [|by left] end.
  destruct (PyStr.all_dots _); [by left|]. right.
  exists (PyStr.drop (S n) p). split; [done|]. split; [done|].
  destruct (occurs "/" (PyStr.drop (S n) p)) eqn:Eo; [|done].
  destruct (PyStr.rfind_from 0 "/" p) as [i|] eqn:Es.
  - destruct (rfind_from_last _ _ _ _ Es) as (m & -> & _ & Hs).
    cbn [Nat.add] in *. apply Nat.leb_le in Ele.
    apply (occurs_drop_le _ (S m)) in Eo; [congruence|lia].
  - apply rfind_from_None in Es.
    apply (occurs_drop_le _ 0) in Eo; [|lia]. cbn [PyStr.drop] in Eo.
    destruct p; cbn [PyStr.drop] in Eo; congruence.
Qed.

Lemma splitext_ext_no_dot u :
  occurs "." u = false → PyStr.splitext_ext u = EmptyString.
Proof.
  intros Hu. unfold PyStr.splitext_ext, PyStr.rfind.
  apply (rfind_from_None 0) in Hu. by rewrite Hu.
Qed.

Lemma splitext_ext_app u rest :
  u ≠ EmptyString →
  occurs "." u = false → occurs "/" u = false →
  occurs "." rest = false → occurs "/" rest = false →
  PyStr.splitext_ext (u +:+ String "." rest) = String "." rest.
Proof.
  intros Hne Hud Hus Hrd Hrs. unfold PyStr.splitext_ext, PyStr.rfind.
  rewrite rfind_from_app by done. cbn [Nat.add].
  assert (PyStr.rfind_from 0 "/" (u +:+ String "." rest) = None) as ->.
  { apply rfind_from_None. rewrite occurs_app. cbn [occurs].
    by rewrite Hus, Hrs. }
  cbn [Nat.leb]. rewrite Nat.sub_0_r. cbn [PyStr.drop].
  rewrite take_app_length, drop_app_length.
  destruct u as [|d u]; [done|]. cbn [PyStr.all_dots].
  cbn [occurs] in Hud. apply orb_false_iff in Hud as [Hd _].
  by rewrite Ascii.eqb_sym, Hd.
Qed.

Lemma lower_char_dot_slash c :
  Ascii.eqb "." (PyStr.lower_char c) = Ascii.eqb "." c
  ∧ Ascii.eqb "/" (PyStr.lower_char c) = Ascii.eqb "/" c.
Proof. destruct c as [[] [] [] [] [] [] [] []]; vm_compute; done. Qed.

Lemma lower_occurs_dot s : occurs "." (PyStr.lower s) = occurs "." s.
Proof.
  induction s as [|c s IH]; [done|]. cbn [PyStr.lower occurs].
  by rewrite (proj1 (lower_char_dot_slash c)), IH.
Qed.

Lemma ext_char_kept c :
  let d :=
    PyStr.lower_char
      (if safe_char (PyStr.lower_char c) then PyStr.lower_char c
       else "_"%char) in
  ext_char d = true → d = PyStr.lower_char c.
Proof. destruct c as [[] [] [] [] [] [] [] []]; vm_compute; done. Qed.

(** Lowercasing and sanitising cannot turn another extension into one
    made of extension characters. *)
Lemma ext_chars_kept e v :
  ext_chars v = true →
  PyStr.lower (_sanitize_filename (PyStr.lower e)) = v →
  PyStr.lower e = v.
Proof.
  revert v. induction e as [|c e IH]; intros v Hv; [done|].
  cbn [PyStr.lower _sanitize_filename]. intros <-.
  cbn [ext_chars] in Hv. apply andb_true_iff in Hv as [Hc Hv].
  f_equal.
  - symmetry. by apply ext_char_kept.
  - by apply IH.
Qed.

Lemma video_ext_fixed v :
  v ∈ video_exts →
  ext_chars v = true ∧ PyStr.lower (_sanitize_filename v) = v.
Proof.
  unfold video_exts. rewrite !elem_of_cons, elem_of_nil.
  intros [->|[->|[->|[->|[]]]]]; by vm_compute.
Qed.

(** X19. save_upload stores nothing and returns None without an upload or
    for an empty file name. Otherwise it adds one file to the uploads and
    removes none, and returns its name, which has no path separator. When
    the generated prefix is non-empty and free of dots and separators (as a
    time stamp, underscore and hex digits are), the stored name's
    extension is the upload's extension, lowercased and sanitised, and the
    stored file is typed video exactly when the upload's extension,
    lowercased, is one of .mp4, .mov, .avi, .webm. *)
Theorem upload_typed_by_extension uniq filename files :
  save_upload uniq None files = (None, files)
  ∧ save_upload uniq (Some EmptyString) files = (None, files)
  ∧ (filename ≠ EmptyString →
     ∃ fname,
       save_upload uniq (Some filename) files
       = (Some fname, files ∪ {[fname]})
       ∧ occurs "/" fname = false
       ∧ (uniq ≠ EmptyString →
          occurs "." uniq = false → occurs "/" uniq = false →
          PyStr.splitext_ext fname
          = _sanitize_filename
              (PyStr.lower (PyStr.splitext_ext filename))
          ∧ (media_type_of fname = "video"
             ↔ PyStr.lower (PyStr.splitext_ext filename) ∈ video_exts))).
Proof.
  split; [done|]. split; [done|]. intros Hne.
  unfold save_upload. cbn [truthy_str default from_option id].
  assert (PyStr.truthy filename = true) as -> by by destruct filename.
  cbn [negb]. eexists. split; [reflexivity|].
  split; [apply sanitize_no_slash|]. intros Hu Hud Hus.
  assert (PyStr.splitext_ext
            (_sanitize_filename
               (uniq +:+ PyStr.lower (PyStr.splitext_ext filename)))
          = _sanitize_filename (PyStr.lower (PyStr.splitext_ext filename)))
    as Hext.
  { rewrite sanitize_app.
    destruct (splitext_ext_shape filename) as [->|(rest & -> & Hrd & Hrs)].
    - cbn [PyStr.lower _sanitize_filename].
      assert (∀ s, s +:+ EmptyString = s) as ->
        by (induction s as [|? ? IH]; [done|];
            change (String a s +:+ EmptyString)
              with (String a (s +:+ EmptyString)); by rewrite IH).
      apply splitext_ext_no_dot. by rewrite sanitize_occurs_dot.
    - cbn [PyStr.lower _sanitize_filename].
      assert (PyStr.lower_char "." = "."%char) as -> by done.
      assert (safe_char "." = true) as -> by done.
      apply splitext_ext_app.
      + by destruct uniq.
      + by rewrite sanitize_occurs_dot.
      + apply sanitize_no_slash.
      + by rewrite sanitize_occurs_dot, lower_occurs_dot.
      + apply sanitize_no_slash. }
  split; [exact Hext|].
  unfold media_type_of. rewrite Hext. split.
  - case_bool_decide as Hin; [intros _|done].
    destruct (video_ext_fixed _ Hin) as [Hv _].
    by rewrite <-(ext_chars_kept _ _ Hv eq_refl) in Hin.
  - intros Hin. destruct (video_ext_fixed _ Hin) as [_ Hfix].
    rewrite Hfix. by rewrite bool_decide_true.
Qed.

Lemma upload_typed_by_extension_witness :
  ∃ fname,
    save_upload "20240101120000_ab12cd" (Some "My Clip (1).MOV") ∅
    = (Some fname, ∅ ∪ {[fname]})
    ∧ media_type_of fname = "video".
Proof.
  destruct (upload_typed_by_extension "20240101120000_ab12cd"
              "My Clip (1).MOV" ∅) as (_ & _ & Hsave).
  destruct Hsave as (fname & Hs & _ & Htype); [done|].
  exists fname. split; [exact Hs|].
  destruct Htype as [_ Hvideo]; [done|reflexivity|reflexivity|].
  apply Hvideo. vm_compute. apply elem_of_cons. right.
  apply elem_of_cons. left. reflexivity.
Defined.

(** ** Recommendation lines *)

Lemma split_lines_cons text : ∃ line lines, split_lines text = line :: lines.
Proof.
  induction text as [|c text (line & lines & IH)]; [by eexists _, _|].
  cbn [split_lines]. destruct (Ascii.eqb c _); [by eexists _, _|].
  rewrite IH. by eexists _, _.
Qed.

Lemma split_lines_no_newline text line :
  line ∈ split_lines text → occurs (ascii_of_N 10) line = false.
Proof.
  revert line. induction text as [|c text IH]; intros line.
  - intros Hin. apply list_elem_of_singleton in Hin as ->. done.
  - cbn [split_lines]. destruct (Ascii.eqb c (ascii_of_N 10)) eqn:Ec.
    + intros Hin. apply elem_of_cons in Hin as [->|Hin]; [done|]. by apply IH.
    + destruct (split_lines_cons text) as (l & ls & E). rewrite E in *.
      intros Hin. apply elem_of_cons in Hin as [->|Hin].
      * cbn [occurs]. rewrite Ascii.eqb_sym, Ec. apply IH, list_elem_of_here.
      * apply IH. by apply list_elem_of_further.
Qed.

Lemma split_lines_whitespace text line :
  PyStr.whitespace_only text = true →
  line ∈ split_lines text → PyStr.whitespace_only line = true.
Proof.
  revert line. induction text as [|c text IH]; intros line Hw.
  - intros Hin. apply list_elem_of_singleton in Hin as ->. done.
  - cbn [PyStr.whitespace_only] in Hw. apply andb_true_iff in Hw as [Hc Hw].
    cbn [split_lines]. destruct (Ascii.eqb c (ascii_of_N 10)).
    + intros Hin. apply elem_of_cons in Hin as [->|Hin]; [done|]. by apply IH.
    + destruct (split_lines_cons text) as (l & ls & E). rewrite E in *.
      intros Hin. apply elem_of_cons in Hin as [->|Hin].
      * cbn [PyStr.whitespace_only]. rewrite Hc.
        apply (IH l Hw), list_elem_of_here.
      * apply (IH _ Hw). by apply list_elem_of_further.
Qed.

Lemma occurs_lstrip c s :
  occurs c (PyStr.lstrip s) = true → occurs c s = true.
Proof.
  induction s as [|d s IH]; [done|]. cbn [PyStr.lstrip].
  destruct (PyStr.isspace d); [|done]. intros H. cbn [occurs].
  rewrite (IH H). apply orb_true_r.
Qed.

Lemma occurs_rstrip c s :
  occurs c (PyStr.rstrip s) = true → occurs c s = true.
Proof.
  induction s as [|d s IH]; [done|]. cbn [PyStr.rstrip occurs].
  destruct (PyStr.rstrip s) as [|e r].
  - destruct (PyStr.isspace d); [done|]. cbn [occurs].
    rewrite orb_false_r. intros ->. done.
  - cbn [occurs] in *. intros H. apply orb_true_iff in H as [->|H]; [done|].
    rewrite (IH H). apply orb_true_r.
Qed.

(** X20. The recommendations shown after the health quiz are the lines of
    the model's text, trimmed, without the blank ones: each is non-empty,
    has no surrounding whitespace left to trim and no line break, and is
    the trimmed form of a line of the text; every line that is not blank
    is there; a text of whitespace only gives no recommendation. *)
Theorem recommendations_are_trimmed_lines text :
  (∀ r, r ∈ recommendations text →
        r ≠ EmptyString
        ∧ PyStr.strip r = r
        ∧ occurs (ascii_of_N 10) r = false
        ∧ ∃ line, line ∈ split_lines text ∧ r = PyStr.strip line)
  ∧ (∀ line, line ∈ split_lines text →
             PyStr.whitespace_only line = false →
             PyStr.strip line ∈ recommendations text)
  ∧ (PyStr.whitespace_only text = true → recommendations text = []).
Proof.
  unfold recommendations. split; [|split].
  - intros r Hr. apply list_elem_of_fmap in Hr as (line & -> & Hin).
    apply list_elem_of_filter in Hin as [Ht Hin].
    split; [by destruct (PyStr.strip line)|].
    split; [apply strip_idempotent|]. split; [|by exists line].
    destruct (occurs _ (PyStr.strip line)) eqn:Eo; [|done].
    unfold PyStr.strip in Eo. apply occurs_rstrip, occurs_lstrip in Eo.
    by rewrite (split_lines_no_newline text line Hin) in Eo.
  - intros line Hin Hw. apply list_elem_of_fmap. exists line.
    split; [done|]. apply list_elem_of_filter. split; [|done].
    destruct (PyStr.strip line) eqn:Es; [|done].
    apply strip_empty_iff in Es. congruence.
  - intros Hw.
    pose proof (λ line, split_lines_whitespace text line Hw) as Hall.
    revert Hall. generalize (split_lines text).
    intros lines. induction lines as [|line lines IH]; intros Hall; [done|].
    rewrite filter_cons, decide_False.
    + apply IH. intros l Hl. apply Hall. by apply list_elem_of_further.
    + rewrite (proj2 (strip_empty_iff line)); [done|].
      apply Hall, list_elem_of_here.
Qed.

Lemma recommendations_are_trimmed_lines_witness :
  "Sleep 8h" ∈ recommendations quiz_answer
  ∧ recommendations quiz_answer = ["Drink water"; "Sleep 8h"].
Proof.
  destruct (recommendations_are_trimmed_lines quiz_answer) as (_ & Hin & _).
  split; [|vm_compute; reflexivity].
  apply (Hin "  Sleep 8h"); [|reflexivity].
  assert (split_lines quiz_answer
          = [" Drink water "; ""; "  Sleep 8h"; ""]) as ->
    by (vm_compute; reflexivity).
  do 2 apply list_elem_of_further. apply list_elem_of_here.
Defined.

(** ** Signing up, logging in, logging out *)

Section SignupLogin.
Variable sha256_hexdigest : string → string.

(** X21. signup_user_route followed by login_user_route: for an email
    that no user holds in normal form, signup redirects to the login page
    and adds one user; logging in on the resulting store with any spelling
    of the email (same normal form) and of the password (same up to
    surrounding whitespace) redirects to the home page and leaves the new
    user's id and normalised email in the session. For an email that is
    taken, signup renders its page with the error message and the store is
    unchanged. *)
Theorem signup_then_login db session email password email' password' :
  let signed := signup_user_route sha256_hexdigest db email password in
  let logged :=
    login_user_route sha256_hexdigest signed.2 session email' password' in
  (Auth.get_current_user db email = None →
   normal_email email' = normal_email email →
   PyStr.strip password' = PyStr.strip password →
   signed.1 = Page_redirect (RedirectResponse "/login" 303)
   ∧ size (users signed.2) = S (size (users db))
   ∧ logged.1 = Page_redirect (RedirectResponse "/home" 303)
   ∧ sess_user_id logged.2 = Some (next_id (users db))
   ∧ sess_user_email logged.2 = Some (normal_email email))
  ∧ (Auth.get_current_user db email ≠ None →
     signed
     = (Page_template "signup.html"
          (Some "Email already registered. Please log in."), db)).
Proof.
  intros signed logged. subst signed logged. split.
  - intros E He Hp. unfold Auth.get_current_user in E.
    unfold signup_user_route, Auth.register_user. rewrite E.
    cbn [fst snd]. split; [done|].
    split.
    { cbn [users set_users]. unfold add_row.
      apply map_size_insert_None, next_id_fresh. }
    apply first_None_count in E.
    unfold login_user_route, Auth.login_user.
    cbn [users set_users]. unfold add_row.
    fold (normal_email email'). rewrite He. unfold normal_email.
    rewrite (first_insert_only _ (users db) _ _ (next_id_fresh _) E)
      by reflexivity.
    cbn [snd user_hashed_password].
    unfold Auth.verify_password. rewrite Hp.
    rewrite bool_decide_true by done. done.
  - intros E. unfold signup_user_route.
    rewrite (register_user_taken sha256_hexdigest db email password); [done|].
    unfold Auth.get_current_user in E. intros Hc.
    by apply first_None_count in Hc.
Qed.

End SignupLogin.

Lemma signup_then_login_witness :
  (login_user_route tag_digest
     (signup_user_route tag_digest empty_store " Ann@Example.org "
        " s3cret ").2
     empty_session "ann@example.org" "s3cret").1
  = Page_redirect (RedirectResponse "/home" 303).
Proof.
  destruct (signup_then_login tag_digest empty_store empty_session
              " Ann@Example.org " " s3cret " "ann@example.org" "s3cret")
    as [Hnew _].
  destruct Hnew as (_ & _ & Hl & _); [reflexivity..|exact Hl].
Defined.

(** X22. logout clears both identities of the client: after it the landing
    page sends the client to the login page, the dashboard and the three
    post-writing routes redirect to the consultant registration without
    writing anything, and a like is recorded without a user. *)
Theorem logout_clears_identities db session ref post_id content media
    new_bio now :
  let session' := (logout session).2 in
  let request := request_of session' ref in
  root session' = RedirectResponse "/login" 307
  ∧ consultant_post_page db session'
    = (inl (RedirectResponse "/consultant-register" 307), session')
  ∧ consultant_post_submit db request content media now
    = (Returns (RedirectResponse "/consultant-register" 307), db)
  ∧ edit_post db request post_id new_bio media now
    = (Returns (RedirectResponse "/consultant-register" 307), db)
  ∧ delete_post db request post_id
    = (Returns (RedirectResponse "/consultant-register" 307), db)
  ∧ (pair_likes db post_id None = 0%nat →
     ∃ id like,
       likes (like_post db request post_id now).2
       = <[id := like]> (likes db)
       ∧ like_user_id like = None).
Proof.
  intros session' request. subst session' request.
  do 5 (split; [done|]).
  intros Hc. unfold pair_likes in Hc. apply first_None_count in Hc.
  rewrite like_post_likes.
  cbn [logout snd request_of session_user_id sess_user_id empty_session].
  rewrite Hc. by eexists _, _.
Qed.

Lemma logout_clears_identities_witness :
  ∃ id like,
    likes (like_post one_like
             (request_of (logout session_of_consultant_1).2 None) 1 102).2
    = <[id := like]> (likes one_like)
    ∧ like_user_id like = None.
Proof.
  destruct (logout_clears_identities one_like session_of_consultant_1 None 1
              "x" None "y" 102) as (_ & _ & _ & _ & _ & Hlike).
  apply Hlike. vm_compute. reflexivity.
Defined.
